(** * WhatsApp OTP sample server (Python): the OTP lifecycle of [server.py]

    A shallow embedding of [Server/python/server.py]: code generation,
    SHA-256 hashing, constant-time verification, and the two endpoint
    handlers [send_otp] and [verify_otp] acting on the in-memory dictionary
    [active_codes].

    Modelling conventions.
    - A Python [str] is a [string] of bytes (its UTF-8 encoding), so that
      [code.encode()] is the identity; every string the handlers build is
      ASCII.
    - A Python [int] is a [Z].
    - A [datetime] is a [Z] counting microseconds; [datetime.now()] is an
      argument of each handler.
    - [secrets.randbelow(n)] is an argument [r] of [generate_code], with
      [0 <= r < n].
    - [active_codes] is a [gmap string OtpRecord], threaded through the
      handlers.
    - The outcome of [requests.post] is an argument of [send_otp]. *)

From Stdlib Require Import ZArith Lia List Ascii String.
From stdpp Require Import gmap strings.

Local Open Scope Z_scope.

(** ** Configuration constants *)

Definition CODE_LENGTH : Z := 6.
Definition CODE_LIFETIME_MINUTES : Z := 5.
Definition MAX_VERIFICATION_ATTEMPTS : Z := 3.

(** ** Python built-ins used by the server *)

Module Py.

(** The character of a decimal digit, ['0' + d]. *)
Definition digit_char (d : Z) : ascii := ascii_of_nat (Z.to_nat (48 + d)).

(** The value of a decimal digit character. *)
Definition digit_val (c : ascii) : Z := Z.of_nat (nat_of_ascii c) - 48.

Definition is_digit (c : ascii) : bool :=
  (48 <=? Z.of_nat (nat_of_ascii c)) && (Z.of_nat (nat_of_ascii c) <=? 57).

(** Digits of a non-negative integer, least significant first, pushed in
    front of [acc]. *)
Fixpoint str_digits (fuel : nat) (n : Z) (acc : string) : string :=
  match fuel with
  | O => acc
  | S fuel' =>
      let acc' := String (digit_char (n mod 10)) acc in
      if n / 10 =? 0 then acc' else str_digits fuel' (n / 10) acc'
  end.

(** A number of digits that always suffices: [n < 2 ^ (log2 n + 1)]. *)
Definition digits_bound (n : Z) : nat := S (Z.to_nat (Z.log2 n)).

(** [str(n)] for an [int]. *)
Definition str (n : Z) : string :=
  if n <? 0 then String "-" (str_digits (digits_bound (- n)) (- n) "")
  else str_digits (digits_bound n) n "".

(** ['0' * k]. *)
Fixpoint zeros (k : nat) : string :=
  match k with
  | O => ""
  | S k' => String "0" (zeros k')
  end.

(** [s.zfill(width)]: pad with zeros on the left, after a leading sign. *)
Definition zfill (width : Z) (s : string) : string :=
  let len := Z.of_nat (String.length s) in
  if width <=? len then s
  else
    let fill := zeros (Z.to_nat (width - len)) in
    match s with
    | String c rest =>
        if (Ascii.eqb c "+" || Ascii.eqb c "-")%bool
        then String c (fill +:+ rest)
        else fill +:+ s
    | EmptyString => fill
    end.

(** The numeric value of a string of decimal digits, [int(s)]. *)
Fixpoint int_digits (acc : Z) (s : string) : Z :=
  match s with
  | EmptyString => acc
  | String c rest => int_digits (10 * acc + digit_val c) rest
  end.

Definition int (s : string) : Z := int_digits 0 s.

(** [s.isdigit()] restricted to ASCII, for a string of any length. *)
Fixpoint all_digits (s : string) : bool :=
  match s with
  | EmptyString => true
  | String c rest => is_digit c && all_digits rest
  end.

End Py.

(** ** [generate_code] *)

Definition min_val : Z := 10 ^ (CODE_LENGTH - 1).
Definition max_val : Z := 10 ^ CODE_LENGTH - 1.

(** The argument of [secrets.randbelow] in [generate_code]. *)
Definition draw_range : Z := max_val - min_val + 1.

(** [generate_code()], as a function of the value [r] returned by
    [secrets.randbelow(max_val - min_val + 1)]. *)
Definition generate_code (r : Z) : string :=
  let code := min_val + r in
  Py.zfill CODE_LENGTH (Py.str code).

(** ** [hashlib.sha256]

    The standard library's SHA-256, written after FIPS 180-4 on 32-bit
    words held in [Z]; the test vectors of the standard are checked
    below. *)

Module Sha256.

Definition mask32 : Z := 0xffffffff.

(** Addition modulo [2^32]. *)
Definition add32 (x y : Z) : Z := Z.land (x + y) mask32.

(** Rotate a 32-bit word right by [n] bits. *)
Definition rotr (n x : Z) : Z :=
  Z.lor (Z.shiftr x n) (Z.land (Z.shiftl x (32 - n)) mask32).

Definition shr (n x : Z) : Z := Z.shiftr x n.

Definition Ch (x y z : Z) : Z :=
  Z.lxor (Z.land x y) (Z.land (Z.lxor x mask32) z).

Definition Maj (x y z : Z) : Z :=
  Z.lxor (Z.lxor (Z.land x y) (Z.land x z)) (Z.land y z).

Definition Sigma0 (x : Z) : Z :=
  Z.lxor (Z.lxor (rotr 2 x) (rotr 13 x)) (rotr 22 x).

Definition Sigma1 (x : Z) : Z :=
  Z.lxor (Z.lxor (rotr 6 x) (rotr 11 x)) (rotr 25 x).

Definition sigma0 (x : Z) : Z :=
  Z.lxor (Z.lxor (rotr 7 x) (rotr 18 x)) (shr 3 x).

Definition sigma1 (x : Z) : Z :=
  Z.lxor (Z.lxor (rotr 17 x) (rotr 19 x)) (shr 10 x).

(** The eight working variables, also the running hash value. *)
Record state : Type := State
  { sa : Z; sb : Z; sc : Z; sd : Z; se : Z; sf : Z; sg : Z; sh : Z }.

(** The constants of FIPS 180-4 are fractional parts of roots of the first
    primes. *)
Definition is_prime (p : Z) : bool :=
  (2 <=? p) &&
  forallb (fun d => negb (p mod Z.of_nat d =? 0)) (seq 2 (Z.to_nat p - 2)).

Definition primes_upto (n : nat) : list Z :=
  filter is_prime (map Z.of_nat (seq 0 (S n))).

(** Integer cube root, one bit at a time from bit [bits - 1] down. *)
Fixpoint cbrt_bits (bits : nat) (n x : Z) : Z :=
  match bits with
  | O => x
  | S bits' =>
      let y := Z.lor x (Z.shiftl 1 (Z.of_nat bits')) in
      cbrt_bits bits' n (if y * y * y <=? n then y else x)
  end.

(** First 32 bits of the fractional part of the cube root of [p], for
    [p < 2^9]. *)
Definition frac_cbrt32 (p : Z) : Z := Z.land (cbrt_bits 35 (p * 2 ^ 96) 0) mask32.

(** First 32 bits of the fractional part of the square root of [p]. *)
Definition frac_sqrt32 (p : Z) : Z := Z.land (Z.sqrt (p * 2 ^ 64)) mask32.

(** Round constants: from the cube roots of the first 64 primes. *)
Definition K : list Z := Eval vm_compute in map frac_cbrt32 (primes_upto 311).

(** Initial hash value: from the square roots of the first 8 primes. *)
Definition H0 : state :=
  Eval vm_compute in
    match map frac_sqrt32 (primes_upto 19) with
    | [a; b; c; d; e; f; g; h] => State a b c d e f g h
    | _ => State 0 0 0 0 0 0 0 0
    end.

(** Padding: a [0x80] byte, zeros up to 56 modulo 64, and the bit length
    as a big-endian 64-bit integer. *)
Definition be_bytes (count : nat) (x : Z) : list Z :=
  map (fun i => Z.land (Z.shiftr x (8 * Z.of_nat i)) 0xff) (rev (seq 0 count)).

Definition pad (msg : list Z) : list Z :=
  let len := Z.of_nat (length msg) in
  msg ++ [0x80] ++ repeat 0 (Z.to_nat ((55 - len) mod 64))
      ++ be_bytes 8 (8 * len).

(** Big-endian bytes to 32-bit words. *)
Fixpoint words (bytes : list Z) : list Z :=
  match bytes with
  | b0 :: b1 :: b2 :: b3 :: rest =>
      Z.lor (Z.lor (Z.shiftl b0 24) (Z.shiftl b1 16))
            (Z.lor (Z.shiftl b2 8) b3) :: words rest
  | _ => []
  end.

(** The message schedule, most recent word first: [wrev] holds
    [W_(t-1), W_(t-2), ...]. *)
Fixpoint schedule_rev (count : nat) (wrev : list Z) : list Z :=
  match count with
  | O => wrev
  | S count' =>
      let wt :=
        add32 (add32 (sigma1 (nth 1 wrev 0)) (nth 6 wrev 0))
              (add32 (sigma0 (nth 14 wrev 0)) (nth 15 wrev 0)) in
      schedule_rev count' (wt :: wrev)
  end.

Definition schedule (block : list Z) : list Z :=
  rev (schedule_rev 48 (rev block)).

Definition round (s : state) (kw : Z * Z) : state :=
  let t1 :=
    add32 (add32 (add32 (sh s) (Sigma1 (se s))) (Ch (se s) (sf s) (sg s)))
          (add32 (fst kw) (snd kw)) in
  let t2 := add32 (Sigma0 (sa s)) (Maj (sa s) (sb s) (sc s)) in
  State (add32 t1 t2) (sa s) (sb s) (sc s) (add32 (sd s) t1)
        (se s) (sf s) (sg s).

(** One block of sixteen words folded into the running hash value. *)
Definition compress (h : state) (block : list Z) : state :=
  let s := fold_left round (combine K (schedule block)) h in
  State (add32 (sa h) (sa s)) (add32 (sb h) (sb s))
        (add32 (sc h) (sc s)) (add32 (sd h) (sd s))
        (add32 (se h) (se s)) (add32 (sf h) (sf s))
        (add32 (sg h) (sg s)) (add32 (sh h) (sh s)).

Fixpoint blocks (count : nat) (ws : list Z) (h : state) : state :=
  match count with
  | O => h
  | S count' => blocks count' (skipn 16 ws) (compress h (firstn 16 ws))
  end.

Definition digest (msg : list Z) : state :=
  let ws := words (pad msg) in
  blocks (Nat.div (length ws) 16) ws H0.

(** Lower-case hexadecimal output. *)
Definition hex_char (d : Z) : ascii :=
  if d <? 10 then ascii_of_nat (Z.to_nat (48 + d))
  else ascii_of_nat (Z.to_nat (87 + d)).

Definition hex32 (x : Z) : list ascii :=
  map (fun i => hex_char (Z.land (Z.shiftr x (4 * Z.of_nat i)) 0xf))
      (rev (seq 0 8)).

Definition hex_state (s : state) : list ascii :=
  hex32 (sa s) ++ hex32 (sb s) ++ hex32 (sc s) ++ hex32 (sd s) ++
  hex32 (se s) ++ hex32 (sf s) ++ hex32 (sg s) ++ hex32 (sh s).

(** The bytes of a [bytes] object held as a [string]. *)
Definition bytes_of (s : string) : list Z :=
  map (fun c => Z.of_nat (nat_of_ascii c)) (list_ascii_of_string s).

(** [hashlib.sha256(data).hexdigest()]. *)
Definition hexdigest (data : string) : string :=
  string_of_list_ascii (hex_state (digest (bytes_of data))).

End Sha256.

(** ** [hash_code] and [verify_code] *)

(** [hash_code(code)]: [hashlib.sha256(code.encode()).hexdigest()]. *)
Definition hash_code (code : string) : string := Sha256.hexdigest code.

Module Hmac.

Definition ord (c : ascii) : Z := Z.of_nat (nat_of_ascii c).

(** The loop of CPython's [_tscmp]: [result |= *left++ ^ *right++] over the
    length of [right]. *)
Fixpoint tscmp_loop (left right : string) (result : Z) : Z :=
  match left, right with
  | String x left', String y right' =>
      tscmp_loop left' right' (Z.lor result (Z.lxor (ord x) (ord y)))
  | _, _ => result
  end.

(** [hmac.compare_digest(a, b)] on ASCII strings: when the lengths differ,
    [b] is compared with itself and the result starts at 1. *)
Definition compare_digest (a b : string) : bool :=
  let same_length := Nat.eqb (String.length a) (String.length b) in
  let left := if same_length then a else b in
  let result := if same_length then 0 else 1 in
  tscmp_loop left b result =? 0.

End Hmac.

(** [verify_code(provided_code, stored_hash)]. *)
Definition verify_code (provided_code stored_hash : string) : bool :=
  let provided_hash := hash_code provided_code in
  Hmac.compare_digest provided_hash stored_hash.

(** ** The store [active_codes] *)

(** A value of [active_codes]:
    [{"code_hash": str, "expiration": datetime, "attempts": int}]. *)
Record OtpRecord : Type := mkOtpRecord
  { code_hash : string; expiration : Z; attempts : Z }.

Abbreviation Store := (gmap string OtpRecord).

(** [active_codes[phone_number]["attempts"] += 1]. *)
Definition incr_attempts (rec : OtpRecord) : OtpRecord :=
  {| code_hash := code_hash rec;
     expiration := expiration rec;
     attempts := attempts rec + 1 |}.

(** A Flask reply: body and status code. *)
Definition Response : Type := string * Z.

(** [timedelta(minutes=m)], in microseconds. *)
Definition timedelta_minutes (m : Z) : Z := m * 60 * 1000000.

(** ** [send_otp] *)

(** What [requests.post] does: it raises, or it returns a response with a
    status code, whose [.json()] in turn parses or raises. *)
Inductive PostResult : Type :=
  | PostRaises
  | PostReturns (status_code : Z) (json_parses : bool).

Definition send_failed : Response :=
  ("Error calling send message API. Check server logs.", 500).

(** [send_otp(phone_number)], with the draw [r] of [generate_code], the
    clock and the gateway's behaviour as arguments. *)
Definition send_otp (active_codes : Store) (phone_number : string)
    (r now : Z) (post : PostResult) : Store * Response :=
  let code := generate_code r in
  let expiration := now + timedelta_minutes CODE_LIFETIME_MINUTES in
  match post with
  | PostRaises =>
      (* except Exception, line 255 *)
      (active_codes, send_failed)
  | PostReturns status_code json_parses =>
      if negb (status_code =? 200) then
        if json_parses then
          (* line 242 *)
          (active_codes, send_failed)
        else
          (* response.json() raised: except Exception, line 259 *)
          (active_codes, send_failed)
      else
        let active_codes' :=
          <[phone_number :=
              {| code_hash := hash_code code;
                 expiration := expiration;
                 attempts := 0 |}]> active_codes in
        (active_codes', ("", 200))
  end.

(** ** [verify_otp] *)

(** The [return] statements of [verify_otp], by source line. *)
Inductive ReturnSite : Type :=
  | Line291   (* no active code, 404 *)
  | Line300   (* no code provided, 400 *)
  | Line308   (* expired, 401 *)
  | Line316   (* attempts already at the maximum, 401 *)
  | Line327   (* wrong code, maximum reached, 401 *)
  | Line333   (* wrong code, attempts remain, 401 *)
  | Line339.  (* success, 200 *)

(** [verify_otp(phone_number)] with the ["code"] field of the request body
    and the clock as arguments; each result is labelled with the [return]
    statement that produced it. The field is [None] when the body is not
    JSON or has no ["code"], and otherwise a string, the type that
    [verify_code] declares for it. *)
Definition verify_otp_traced (active_codes : Store) (phone_number : string)
    (provided_code : option string) (now : Z)
    : ReturnSite * (Store * Response) :=
  match active_codes !! phone_number with
  | None =>
      (Line291,
       (active_codes, ("No active code for phone # " +:+ phone_number, 404)))
  | Some active_code =>
      match provided_code with
      | None | Some EmptyString =>
          (Line300, (active_codes, ("No code provided.", 400)))
      | Some provided_code =>
          if expiration active_code <? now then
            (Line308,
             (delete phone_number active_codes,
              ("Code has expired, please request another.", 401)))
          else if MAX_VERIFICATION_ATTEMPTS <=? attempts active_code then
            (Line316,
             (delete phone_number active_codes,
              ("Too many failed attempts, please request a new code.", 401)))
          else if negb (verify_code provided_code (code_hash active_code)) then
            let active_code' := incr_attempts active_code in
            let active_codes' := <[phone_number := active_code']> active_codes in
            if MAX_VERIFICATION_ATTEMPTS <=? attempts active_code' then
              (Line327,
               (delete phone_number active_codes',
                ("Too many failed attempts, please request a new code.", 401)))
            else
              let remaining :=
                MAX_VERIFICATION_ATTEMPTS - attempts active_code' in
              (Line333,
               (active_codes',
                ("Incorrect code. " +:+ Py.str remaining
                   +:+ " attempt(s) remaining.", 401)))
          else
            (Line339, (delete phone_number active_codes, ("", 200)))
      end
  end.

Definition verify_otp (active_codes : Store) (phone_number : string)
    (provided_code : option string) (now : Z) : Store * Response :=
  snd (verify_otp_traced active_codes phone_number provided_code now).

(** ** Sequences of requests *)

Inductive Request : Type :=
  | Issue (phone_number : string) (r now : Z) (post : PostResult)
  | Verify (phone_number : string) (provided_code : option string) (now : Z).

Definition handle (active_codes : Store) (req : Request) : Store :=
  match req with
  | Issue phone_number r now post =>
      fst (send_otp active_codes phone_number r now post)
  | Verify phone_number provided_code now =>
      fst (verify_otp active_codes phone_number provided_code now)
  end.

(** The store after serving [reqs] one after the other. *)
Definition serve (reqs : list Request) (active_codes : Store) : Store :=
  fold_left handle reqs active_codes.

(** Every entry has between 0 and [MAX_VERIFICATION_ATTEMPTS - 1] failed
    attempts. *)
Definition attempts_below_max (active_codes : Store) : Prop :=
  forall (phone : string) (rec : OtpRecord),
    active_codes !! phone = Some rec ->
    0 <= attempts rec < MAX_VERIFICATION_ATTEMPTS.

(** ** The outcomes of the specification *)

Inductive Outcome : Type :=
  | Success
  | BadRequest
  | NotFound
  | Expired
  | IncorrectCode (remainingAttempts : Z)
  | TooManyAttempts.

(** The reply by which [verify_otp] reports an outcome for an identifier. *)
Definition reply_of (phone_number : string) (o : Outcome) : Response :=
  match o with
  | Success => ("", 200)
  | BadRequest => ("No code provided.", 400)
  | NotFound => ("No active code for phone # " +:+ phone_number, 404)
  | Expired => ("Code has expired, please request another.", 401)
  | IncorrectCode remaining =>
      ("Incorrect code. " +:+ Py.str remaining +:+ " attempt(s) remaining.",
       401)
  | TooManyAttempts =>
      ("Too many failed attempts, please request a new code.", 401)
  end.

(** The verify operation in the specification's words: the ordered checks
    of its state machine, first match winning. *)
Definition verify_spec (maxAttempts : Z) (store : Store) (identifier : string)
    (candidate : option string) (now : Z) : Store * Outcome :=
  match store !! identifier with
  | None =>
      (* 1. no record *)
      (store, NotFound)
  | Some rec =>
      match candidate with
      | None | Some EmptyString =>
          (* 2. missing or empty candidate code *)
          (store, BadRequest)
      | Some candidateCode =>
          if bool_decide (now > expiration rec) then
            (* 3. now > expiresAt *)
            (delete identifier store, Expired)
          else if bool_decide (attempts rec >= maxAttempts) then
            (* 4. attempts >= maxAttempts *)
            (delete identifier store, TooManyAttempts)
          else if bool_decide (hash_code candidateCode = code_hash rec) then
            (* 5. match *)
            (delete identifier store, Success)
          else
            (* 5. no match: increment attempts *)
            let n := attempts rec + 1 in
            if bool_decide (n >= maxAttempts) then
              (delete identifier store, TooManyAttempts)
            else
              (<[identifier := {| code_hash := code_hash rec;
                                  expiration := expiration rec;
                                  attempts := n |}]> store,
               IncorrectCode (maxAttempts - n))
      end
  end.

(** The characters of a hexadecimal digest. *)
Definition hex_alphabet : list ascii := list_ascii_of_string "0123456789abcdef".

(** ** Traces of request sequences *)

(** The [return] statements that come after the comparison of line 319. *)
Definition compares (site : ReturnSite) : bool :=
  match site with
  | Line327 | Line333 | Line339 => true
  | _ => false
  end.

(** A [send_otp] request for [phone] that the gateway accepts. *)
Definition reissues (phone : string) (req : Request) : bool :=
  match req with
  | Issue phone_number _ _ (PostReturns status_code _) =>
      bool_decide (phone_number = phone) && (status_code =? 200)
  | _ => false
  end.

(** The [return] statements taken by the [verify_otp] requests for [phone]
    while [reqs] are served one after the other. *)
Fixpoint verify_sites (phone : string) (reqs : list Request)
    (active_codes : Store) : list ReturnSite :=
  match reqs with
  | [] => []
  | req :: reqs' =>
      let rest := verify_sites phone reqs' (handle active_codes req) in
      match req with
      | Verify phone_number provided_code now =>
          if bool_decide (phone_number = phone)
          then fst (verify_otp_traced active_codes phone_number provided_code now)
                 :: rest
          else rest
      | Issue _ _ _ _ => rest
      end
  end.

(** Comparisons still allowed on the entry of [phone]. *)
Definition attempts_left (phone : string) (active_codes : Store) : Z :=
  match active_codes !! phone with
  | Some rec => Z.max 0 (MAX_VERIFICATION_ATTEMPTS - attempts rec)
  | None => 0
  end.

(** Whether the gateway accepted the message: [requests.post] returned
    status 200 (the test of line 237). *)
Definition accepted (post : PostResult) : bool :=
  match post with
  | PostRaises => false
  | PostReturns status_code _ => status_code =? 200
  end.

(** ** Start-up: [load_config] and [fetch_template_name] *)

(** The values that [json.load] and [response.json()] return, numbers
    being integers; a [dict] is the list of its items, each key once. *)
#[warnings="-register-all"]
Inductive Json : Type :=
  | JNull
  | JBool (b : bool)
  | JInt (n : Z)
  | JStr (s : string)
  | JList (items : list Json)
  | JDict (fields : list (string * Json)).

(** The exceptions that leave the two functions. *)
Inductive Exception : Type :=
  | FileNotFoundError (msg : string)
  | ValueError (msg : string)
  (* ValueError(f"Template not approved: {template.get('status')}") *)
  | ValueError_not_approved (status : Json)
  (* [.get] on a value that is not a [dict] *)
  | AttributeError
  (* [for] over a value that is not iterable *)
  | TypeError
  (* raised inside [open], [json.load], [requests.get] or [response.json] *)
  | LibraryError (name : string).

Inductive result (A : Type) : Type :=
  | Ok (a : A)
  | Raise (e : Exception).
Arguments Ok {A} a.
Arguments Raise {A} e.

#[global] Instance result_ret : MRet result := fun A a => Ok a.
#[global] Instance result_bind : MBind result :=
  fun A B f m => match m with Ok a => f a | Raise e => Raise e end.

Module PyJson.

(** [bool(v)]. *)
Definition truthy (v : Json) : bool :=
  match v with
  | JNull => false
  | JBool b => b
  | JInt n => negb (n =? 0)
  | JStr s => negb (String.eqb s "")
  | JList items => match items with [] => false | _ => true end
  | JDict fields => match fields with [] => false | _ => true end
  end.

Fixpoint lookup_item (key : string) (fields : list (string * Json)) : option Json :=
  match fields with
  | [] => None
  | (k, v) :: rest => if String.eqb k key then Some v else lookup_item key rest
  end.

(** [v.get(key, default)]; only a [dict] has the method. *)
Definition get (v : Json) (key : string) (default : Json) : result Json :=
  match v with
  | JDict fields => Ok (from_option id default (lookup_item key fields))
  | _ => Raise AttributeError
  end.

(** The items that [for x in v] goes through. *)
Definition iterate (v : Json) : result (list Json) :=
  match v with
  | JList items => Ok items
  | JStr s => Ok (map (fun c => JStr (String c "")) (list_ascii_of_string s))
  | JDict fields => Ok (map (fun kv => JStr (fst kv)) fields)
  | JNull | JBool _ | JInt _ => Raise TypeError
  end.

(** [v == s] for a [str] [s]. *)
Definition eq_str (v : Json) (s : string) : bool :=
  match v with
  | JStr s' => String.eqb s' s
  | _ => false
  end.

End PyJson.

Definition CONFIG_FILENAME : string := "whatsapp-info.json".
Definition API_VERSION : string := "v21.0".

Definition required_keys : list string :=
  ["waba_id"; "access_token"; "phone_number_id"; "template_id"].

(** What [load_config] finds at one of its candidate paths: no file, a file
    from which [json.load] returns a value, or a file on which [open] or
    [json.load] raises. *)
Inductive PathState : Type :=
  | NoFile
  | Loads (config : Json)
  | LoadRaises (e : Exception).

(** The loop over [required_keys] of lines 131 to 133. *)
Fixpoint check_required (config : Json) (keys : list string) : result unit :=
  match keys with
  | [] => Ok tt
  | key :: rest =>
      v ← PyJson.get config key JNull;
      if negb (PyJson.truthy v)
      then Raise (ValueError ("Missing " +:+ key +:+ " in " +:+ CONFIG_FILENAME))
      else check_required config rest
  end.

(** [load_config()], given what is at the candidate paths, in the order of
    [config_paths]. *)
Fixpoint load_config (config_paths : list PathState) : result Json :=
  match config_paths with
  | [] =>
      Raise (FileNotFoundError
               ("Missing " +:+ CONFIG_FILENAME +:+ " file. Please run setup.py first."))
  | NoFile :: rest => load_config rest
  | LoadRaises e :: _ => Raise e
  | Loads config :: _ =>
      _ ← check_required config required_keys;
      Ok config
  end.

(** The fields of the configuration that [fetch_template_name] reads,
    taken to be strings. *)
Record Config : Type := mkConfig
  { waba_id : string; access_token : string; template_id : string }.

(** The [for] loop of lines 159 to 163: [Ok (Some name)] when it returns,
    [Ok None] when it runs to its end. *)
Fixpoint scan_templates (config : Config) (templates : list Json)
    : result (option Json) :=
  match templates with
  | [] => Ok None
  | template :: rest =>
      template_id' ← PyJson.get template "id" JNull;
      if PyJson.eq_str template_id' (template_id config) then
        status ← PyJson.get template "status" JNull;
        if negb (PyJson.eq_str status "APPROVED")
        then Raise (ValueError_not_approved status)
        else name ← PyJson.get template "name" JNull; Ok (Some name)
      else scan_templates config rest
  end.

(** [for template in data.get("data", []): ...] on a page. *)
Definition scan_page (config : Config) (data : Json) : result (option Json) :=
  listed ← PyJson.get data "data" (JList []);
  templates ← PyJson.iterate listed;
  scan_templates config templates.

(** [data.get("paging", {}).get("next")]. *)
Definition next_url (data : Json) : result Json :=
  paging ← PyJson.get data "paging" (JDict []);
  PyJson.get paging "next" JNull.

Section Fetch.

(** [requests.get(url, params).json()]: the value the API answers with for
    a URL and an [access_token] parameter ([None] for [params = {}]), or the
    exception raised. *)
Variable http_get : string -> option string -> result Json.

(** [requests.get] turns a [url] that is not a string into one, which then
    has no scheme. *)
Definition requests_get (url : Json) (params : option string) : result Json :=
  match url with
  | JStr s => http_get s params
  | _ => Raise (LibraryError "MissingSchema")
  end.

(** The [while url] loop of lines 155 to 166; [fuel] bounds the number of
    times the test [while url] is evaluated, and the result is [None] when
    that was not enough. *)
Fixpoint fetch_loop (fuel : nat) (config : Config) (url : Json)
    (params : option string) : option (result Json) :=
  match fuel with
  | O => None
  | S fuel' =>
      if negb (PyJson.truthy url) then
        Some (Raise (ValueError ("Template not found: " +:+ template_id config)))
      else
        match requests_get url params with
        | Raise e => Some (Raise e)
        | Ok data =>
            match scan_page config data with
            | Raise e => Some (Raise e)
            | Ok (Some name) => Some (Ok name)
            | Ok None =>
                match next_url data with
                | Raise e => Some (Raise e)
                | Ok next => fetch_loop fuel' config next None
                end
            end
        end
  end.

Definition templates_url (config : Config) : string :=
  "https://graph.facebook.com/" +:+ API_VERSION +:+ "/" +:+ waba_id config
    +:+ "/message_templates".

(** [fetch_template_name(config)]. *)
Definition fetch_template_name (fuel : nat) (config : Config)
    : option (result Json) :=
  fetch_loop fuel config (JStr (templates_url config)) (Some (access_token config)).

End Fetch.

(** What [d.get(key)] yields for a [dict] with the items [fields]. *)
Definition field (fields : list (string * Json)) (key : string) : Json :=
  from_option id JNull (PyJson.lookup_item key fields).

(** A key that [config.get(key)] finds with a truthy value. *)
Definition key_set (fields : list (string * Json)) (key : string) : bool :=
  match PyJson.lookup_item key fields with
  | Some v => PyJson.truthy v
  | None => false
  end.

(** One turn of the [while] loop that finds no template with the
    configured id on the page and reads [next] as the following URL. *)
Definition turns_page (http_get : string -> option string -> result Json)
    (config : Config) (url : Json) (params : option string) (next : Json) : Prop :=
  PyJson.truthy url = true /\
  exists data : Json,
    requests_get http_get url params = Ok data /\
    scan_page config data = Ok None /\
    next_url data = Ok next.

(** Successive turns of the loop, through the URLs [nexts]. *)
Fixpoint turns_pages (http_get : string -> option string -> result Json)
    (config : Config) (url : Json) (params : option string)
    (nexts : list Json) : Prop :=
  match nexts with
  | [] => True
  | next :: rest =>
      turns_page http_get config url params next /\
      turns_pages http_get config next None rest
  end.

(** A sample of API answers: two pages, the second reached through the
    [next] link of the first and only without the token. *)
Definition sample_config : Config :=
  {| waba_id := "42"; access_token := "secret"; template_id := "7" |}.

Definition sample_template (id status name : string) : Json :=
  JDict [("name", JStr name); ("status", JStr status); ("id", JStr id)].

Definition sample_api (url : string) (params : option string) : result Json :=
  if String.eqb url "https://graph.facebook.com/v21.0/42/message_templates"
  then
    match params with
    | Some "secret" =>
        Ok (JDict [("data", JList [sample_template "5" "APPROVED" "welcome"]);
                   ("paging", JDict [("next", JStr "https://graph.facebook.com/page2")])])
    | _ => Raise (LibraryError "HTTPError")
    end
  else if String.eqb url "https://graph.facebook.com/page2"
  then
    match params with
    | None =>
        Ok (JDict [("data", JList [sample_template "6" "REJECTED" "promo";
                                   sample_template "7" "APPROVED" "otp_code";
                                   sample_template "7" "REJECTED" "otp_old"])])
    | Some _ => Raise (LibraryError "HTTPError")
    end
  else Raise (LibraryError "ConnectionError").

(** A sample of API answers whose paging leads back to the same page. *)
Definition cycling_api (url : string) (params : option string) : result Json :=
  Ok (JDict [("data", JList [sample_template "5" "APPROVED" "welcome"]);
             ("paging", JDict [("next", JStr "https://graph.facebook.com/again")])]).

(** * Sanity checks of the embedding *)

Example generate_code_0 : generate_code 0 = "100000".
Proof. reflexivity. Qed.

Example generate_code_23456 : generate_code 23456 = "123456".
Proof. reflexivity. Qed.

Example generate_code_last : generate_code 899999 = "999999".
Proof. reflexivity. Qed.

Example str_samples :
  Py.str 0 = "0" /\ Py.str 7 = "7" /\ Py.str 10 = "10" /\
  Py.str 1024 = "1024" /\ Py.str (-35) = "-35".
Proof. repeat split; reflexivity. Qed.

Example zfill_samples :
  Py.zfill 6 "42" = "000042" /\ Py.zfill 6 "-42" = "-00042" /\
  Py.zfill 3 "1234" = "1234" /\ Py.zfill 2 "" = "00".
Proof. repeat split; reflexivity. Qed.

Example sha256_constants :
  length Sha256.K = 64%nat /\
  nth 0 Sha256.K 0 = 0x428a2f98 /\ nth 63 Sha256.K 0 = 0xc67178f2 /\
  Sha256.sa Sha256.H0 = 0x6a09e667 /\ Sha256.sh Sha256.H0 = 0x5be0cd19.
Proof. repeat split; reflexivity. Qed.

Example sha256_empty :
  Sha256.hexdigest "" =
  "e3b0c44298fc1c149afbf4c8996fb92427ae41e4649b934ca495991b7852b855".
Proof. vm_compute. reflexivity. Qed.

Example sha256_abc :
  Sha256.hexdigest "abc" =
  "ba7816bf8f01cfea414140de5dae2223b00361a396177a9cb410ff61f20015ad".
Proof. vm_compute. reflexivity. Qed.

Example hash_code_123456 :
  hash_code "123456" =
  "8d969eef6ecad3c29a3a629280e686cf0c3f5d5a86aff3ca12020c923adc6c92".
Proof. vm_compute. reflexivity. Qed.

Example compare_digest_samples :
  Hmac.compare_digest "abc" "abc" = true /\
  Hmac.compare_digest "abc" "abd" = false /\
  Hmac.compare_digest "abc" "abcd" = false /\
  Hmac.compare_digest "" "" = true.
Proof. repeat split; reflexivity. Qed.

Example sha256_two_blocks :
  Sha256.hexdigest "abcdbcdecdefdefgefghfghighijhijkijkljklmklmnlmnomnopnopq" =
  "248d6a61d20638b8e5c026930c3e6039a33ce45964ff2167f6ecedd419db06c1".
Proof. vm_compute. reflexivity. Qed.

(** * Properties *)

(** ** Decimal strings *)

Section Decimal.

Lemma digit_val_char (d : Z) : 0 <= d <= 9 -> Py.digit_val (Py.digit_char d) = d.
Proof.
  intros Hd. unfold Py.digit_val, Py.digit_char.
  rewrite nat_ascii_embedding by lia. lia.
Qed.

Lemma is_digit_char (d : Z) : 0 <= d <= 9 -> Py.is_digit (Py.digit_char d) = true.
Proof.
  intros Hd. unfold Py.is_digit, Py.digit_char.
  rewrite nat_ascii_embedding by lia.
  apply andb_true_intro; split; apply Z.leb_le; lia.
Qed.

Lemma is_digit_val (c : ascii) : Py.is_digit c = true -> 0 <= Py.digit_val c <= 9.
Proof.
  unfold Py.is_digit, Py.digit_val. intros H.
  apply andb_prop in H as [H1 H2].
  apply Z.leb_le in H1, H2. lia.
Qed.

Lemma digit_val_inj (c1 c2 : ascii) : Py.digit_val c1 = Py.digit_val c2 -> c1 = c2.
Proof.
  unfold Py.digit_val. intros H.
  rewrite <- (ascii_nat_embedding c1), <- (ascii_nat_embedding c2).
  f_equal. lia.
Qed.

Lemma append_cons (c : ascii) (s1 s2 : string) :
  String c s1 +:+ s2 = String c (s1 +:+ s2).
Proof. reflexivity. Qed.

Lemma length_append (s1 s2 : string) :
  String.length (s1 +:+ s2) = (String.length s1 + String.length s2)%nat.
Proof.
  induction s1 as [|c s1 IH]; [reflexivity |].
  rewrite append_cons. cbn [String.length]. now rewrite IH.
Qed.

Lemma append_assoc (s1 s2 s3 : string) : (s1 +:+ s2) +:+ s3 = s1 +:+ (s2 +:+ s3).
Proof.
  induction s1 as [|c s1 IH]; [reflexivity |].
  rewrite !append_cons. now rewrite IH.
Qed.

Lemma append_nil (s : string) : s +:+ "" = s.
Proof.
  induction s as [|c s IH]; [reflexivity |].
  rewrite append_cons. now rewrite IH.
Qed.

Lemma all_digits_append (s1 s2 : string) :
  Py.all_digits (s1 +:+ s2) = Py.all_digits s1 && Py.all_digits s2.
Proof.
  induction s1 as [|c s1 IH]; [reflexivity |].
  rewrite append_cons. cbn [Py.all_digits].
  rewrite IH. now rewrite andb_assoc.
Qed.

Lemma int_digits_append (s1 s2 : string) (a : Z) :
  Py.int_digits a (s1 +:+ s2) = Py.int_digits (Py.int_digits a s1) s2.
Proof.
  revert a. induction s1 as [|c s1 IH]; intros a; [reflexivity |].
  rewrite append_cons. cbn [Py.int_digits]. apply IH.
Qed.

(** Reading [s] after an accumulated value [a] shifts [a] by the length of
    [s]; the value of [s] itself is below [10 ^ length s]. *)
Lemma int_digits_shift (s : string) (a : Z) :
  Py.int_digits a s = a * 10 ^ Z.of_nat (String.length s) + Py.int s.
Proof.
  unfold Py.int. revert a.
  induction s as [|c s IH]; intros a.
  - simpl. lia.
  - cbn [Py.int_digits String.length].
    rewrite (IH (10 * a + Py.digit_val c)), (IH (10 * 0 + Py.digit_val c)).
    rewrite Nat2Z.inj_succ, Z.pow_succ_r by lia. ring.
Qed.

Lemma int_cons (c : ascii) (s : string) :
  Py.int (String c s) = Py.digit_val c * 10 ^ Z.of_nat (String.length s) + Py.int s.
Proof.
  unfold Py.int at 1. cbn [Py.int_digits].
  rewrite int_digits_shift. f_equal.
Qed.

Lemma int_bounds (s : string) :
  Py.all_digits s = true -> 0 <= Py.int s < 10 ^ Z.of_nat (String.length s).
Proof.
  induction s as [|c s IH]; intros Hs.
  - cbn. lia.
  - cbn [Py.all_digits] in Hs. apply andb_prop in Hs as [Hc Hs].
    specialize (IH Hs). apply is_digit_val in Hc.
    rewrite int_cons. cbn [String.length].
    rewrite Nat2Z.inj_succ, Z.pow_succ_r by lia. nia.
Qed.

(** Two digit strings of one length with one value are equal. *)
Lemma int_inj (s1 s2 : string) :
  Py.all_digits s1 = true -> Py.all_digits s2 = true ->
  String.length s1 = String.length s2 ->
  Py.int s1 = Py.int s2 -> s1 = s2.
Proof.
  revert s2. induction s1 as [|c1 s1 IH]; intros [|c2 s2] H1 H2 Hlen Hint;
    try discriminate; [reflexivity |].
  cbn [Py.all_digits] in H1, H2.
  apply andb_prop in H1 as [Hc1 H1]. apply andb_prop in H2 as [Hc2 H2].
  cbn [String.length] in Hlen. injection Hlen as Hlen.
  rewrite !int_cons, Hlen in Hint.
  pose proof (int_bounds s1 H1) as B1. pose proof (int_bounds s2 H2) as B2.
  rewrite Hlen in B1.
  apply is_digit_val in Hc1, Hc2.
  assert (Py.digit_val c1 = Py.digit_val c2) as Hd by nia.
  assert (Py.int s1 = Py.int s2) as Hrest by (rewrite Hd in Hint; lia).
  f_equal; [now apply digit_val_inj | now apply IH].
Qed.

(** What the digit loop of [str] produces, given enough fuel: the digits
    of [n], without a leading zero unless [n = 0]. *)
Lemma str_digits_spec (fuel : nat) :
  forall (n : Z) (acc : string),
    (0 < fuel)%nat -> 0 <= n < 10 ^ Z.of_nat fuel ->
    exists ds : string,
      Py.str_digits fuel n acc = ds +:+ acc /\
      Py.all_digits ds = true /\
      Py.int ds = n /\
      (1 <= String.length ds)%nat /\
      (n = 0 \/ 10 ^ (Z.of_nat (String.length ds) - 1) <= n).
Proof.
  induction fuel as [|fuel IH]; intros n acc Hfuel Hn; [lia |].
  cbn [Py.str_digits].
  pose proof (Z.div_mod n 10 ltac:(lia)) as Hdm.
  pose proof (Z.mod_pos_bound n 10 ltac:(lia)) as Hmod.
  destruct (Z.eqb_spec (n / 10) 0) as [Hq | Hq].
  - exists (String (Py.digit_char (n mod 10)) "").
    repeat split.
    + cbn. now rewrite is_digit_char by lia.
    + unfold Py.int. cbn. rewrite digit_val_char by lia. lia.
    + cbn. lia.
    + cbn. lia.
  - assert (0 < n / 10) as Hpos by lia.
    assert (0 < fuel)%nat as Hfuel'.
    { destruct fuel; [| lia]. cbn in Hn. lia. }
    assert (0 <= n / 10 < 10 ^ Z.of_nat fuel) as Hq'.
    { rewrite Nat2Z.inj_succ, Z.pow_succ_r in Hn by lia. lia. }
    destruct (IH (n / 10) (String (Py.digit_char (n mod 10)) acc) Hfuel' Hq')
      as (ds & Heq & Hall & Hint & Hlen & Hlead).
    exists (ds +:+ String (Py.digit_char (n mod 10)) "").
    repeat split.
    + rewrite Heq, append_assoc. reflexivity.
    + rewrite all_digits_append, Hall. cbn. now rewrite is_digit_char by lia.
    + unfold Py.int in *. rewrite int_digits_append, Hint. cbn.
      rewrite digit_val_char by lia. lia.
    + rewrite length_append. cbn. lia.
    + right. rewrite length_append. cbn [String.length].
      destruct Hlead as [Hz | Hlead]; [lia |].
      replace (Z.of_nat (String.length ds + 1) - 1)
        with (Z.succ (Z.of_nat (String.length ds) - 1)) by lia.
      rewrite Z.pow_succ_r by lia. lia.
Qed.

Lemma digits_bound_enough (n : Z) : 0 <= n -> n < 10 ^ Z.of_nat (Py.digits_bound n).
Proof.
  intros Hn. unfold Py.digits_bound.
  rewrite Nat2Z.inj_succ, Z2Nat.id by apply Z.log2_nonneg.
  destruct (Z.eq_dec n 0) as [-> | Hnz]; [cbn; lia |].
  pose proof (Z.log2_spec n ltac:(lia)) as [_ Hup].
  eapply Z.lt_le_trans; [exact Hup |].
  apply Z.pow_le_mono_l. pose proof (Z.log2_nonneg n). lia.
Qed.

(** [str(n)] for [n >= 0]: the decimal digits of [n]. *)
Lemma str_spec (n : Z) :
  0 <= n ->
  Py.all_digits (Py.str n) = true /\
  Py.int (Py.str n) = n /\
  (1 <= String.length (Py.str n))%nat /\
  (n = 0 \/ 10 ^ (Z.of_nat (String.length (Py.str n)) - 1) <= n).
Proof.
  intros Hn. unfold Py.str.
  destruct (Z.ltb_spec n 0) as [? | _]; [lia |].
  destruct (str_digits_spec (Py.digits_bound n) n "") as (ds & Heq & H).
  - unfold Py.digits_bound. lia.
  - split; [lia | now apply digits_bound_enough].
  - rewrite Heq, append_nil. exact H.
Qed.

(** The number of digits of [str(n)] when [n] has exactly [k] digits. *)
Lemma str_length (n : Z) (k : nat) :
  (0 < k)%nat -> 10 ^ (Z.of_nat k - 1) <= n < 10 ^ Z.of_nat k ->
  String.length (Py.str n) = k.
Proof.
  intros Hk [Hlo Hhi].
  assert (0 < n) as Hpos.
  { eapply Z.lt_le_trans; [| exact Hlo]. apply Z.pow_pos_nonneg; lia. }
  destruct (str_spec n ltac:(lia)) as (Hall & Hint & Hlen & Hlead).
  pose proof (int_bounds _ Hall) as Hb. rewrite Hint in Hb.
  destruct Hlead as [? | Hlead]; [lia |].
  set (l := String.length (Py.str n)) in *.
  destruct (Nat.lt_trichotomy l k) as [Hlt | [Heq | Hgt]]; [| exact Heq |].
  - exfalso.
    assert (10 ^ Z.of_nat l <= 10 ^ (Z.of_nat k - 1))
      by (apply Z.pow_le_mono_r; lia).
    lia.
  - exfalso.
    assert (10 ^ Z.of_nat k <= 10 ^ (Z.of_nat l - 1))
      by (apply Z.pow_le_mono_r; lia).
    lia.
Qed.

Lemma append_inj_r (s1 s2 t : string) : s1 +:+ t = s2 +:+ t -> s1 = s2.
Proof.
  intros Heq.
  assert (String.length s1 = String.length s2) as Hlen.
  { apply (f_equal String.length) in Heq. rewrite !length_append in Heq. lia. }
  revert s2 Heq Hlen.
  induction s1 as [|c1 s1 IH]; intros [|c2 s2] Heq Hlen; try discriminate;
    [reflexivity |].
  rewrite !append_cons in Heq. injection Heq as -> Heq.
  injection Hlen as Hlen. f_equal. now apply IH.
Qed.

(** [str] is injective: distinct integers print differently. *)
Lemma str_inj (n m : Z) : Py.str n = Py.str m -> n = m.
Proof.
  assert (forall k, 0 <= k -> Py.str k = Py.str_digits (Py.digits_bound k) k "")
    as Hpos.
  { intros k Hk. unfold Py.str. destruct (Z.ltb_spec k 0); [lia | reflexivity]. }
  assert (forall k, k < 0 -> Py.str k = String "-" (Py.str (- k))) as Hneg.
  { intros k Hk. rewrite (Hpos (- k)) by lia. unfold Py.str.
    destruct (Z.ltb_spec k 0); [reflexivity | lia]. }
  assert (forall a b, a < 0 -> 0 <= b -> Py.str a <> Py.str b) as Hmixed.
  { intros a b Ha Hb Heq.
    destruct (str_spec b Hb) as (Hall & _).
    rewrite <- Heq, (Hneg a Ha) in Hall. discriminate. }
  intros Heq.
  destruct (Z.ltb_spec n 0) as [Hn | Hn], (Z.ltb_spec m 0) as [Hm | Hm].
  - rewrite (Hneg n Hn), (Hneg m Hm) in Heq. injection Heq as Heq.
    destruct (str_spec (- n) ltac:(lia)) as (_ & Hvn & _).
    destruct (str_spec (- m) ltac:(lia)) as (_ & Hvm & _).
    rewrite Heq in Hvn. lia.
  - now destruct (Hmixed n m Hn Hm).
  - now destruct (Hmixed m n Hm Hn).
  - destruct (str_spec n Hn) as (_ & Hvn & _).
    destruct (str_spec m Hm) as (_ & Hvm & _).
    rewrite Heq in Hvn. lia.
Qed.

End Decimal.

(** ** The code generator *)

Section Generator.

Lemma draw_range_value : draw_range = 900000.
Proof. reflexivity. Qed.

(** [generate_code] prints [min_val + r] without any padding, and its value
    reads back. *)
Lemma generate_code_spec (r : Z) :
  0 <= r < draw_range ->
  generate_code r = Py.str (min_val + r) /\
  String.length (generate_code r) = 6%nat /\
  Py.all_digits (generate_code r) = true /\
  Py.int (generate_code r) = min_val + r.
Proof.
  intros Hr. rewrite draw_range_value in Hr.
  assert (min_val = 100000) as Hmin by reflexivity.
  assert (String.length (Py.str (min_val + r)) = 6%nat) as Hlen.
  { apply str_length; [lia |]. rewrite Hmin.
    change (10 ^ (Z.of_nat 6 - 1)) with 100000.
    change (10 ^ Z.of_nat 6) with 1000000. lia. }
  assert (generate_code r = Py.str (min_val + r)) as Hgen.
  { unfold generate_code, Py.zfill. cbv zeta. rewrite Hlen. reflexivity. }
  destruct (str_spec (min_val + r) ltac:(lia)) as (Hall & Hint & _).
  rewrite Hgen. auto.
Qed.

Lemma generate_code_inj (r r' : Z) :
  0 <= r < draw_range -> 0 <= r' < draw_range ->
  generate_code r = generate_code r' -> r = r'.
Proof.
  intros Hr Hr' Heq.
  destruct (generate_code_spec r Hr) as (_ & _ & _ & Hv).
  destruct (generate_code_spec r' Hr') as (_ & _ & _ & Hv').
  rewrite Heq in Hv. lia.
Qed.

(** A digit string of length six that does not start with ['0'] is the
    code of the draw [int(s) - min_val]. *)
Lemma generate_code_surj (s : string) :
  String.length s = 6%nat -> Py.all_digits s = true ->
  String.get 0 s <> Some "0"%char ->
  0 <= Py.int s - min_val < draw_range /\
  generate_code (Py.int s - min_val) = s.
Proof.
  intros Hlen Hall Hlead.
  destruct s as [|c rest]; [discriminate |].
  cbn [String.get] in Hlead.
  pose proof Hall as Hall'.
  cbn [Py.all_digits] in Hall'. apply andb_prop in Hall' as [Hc Hrest].
  cbn [String.length] in Hlen. injection Hlen as Hlen.
  pose proof (is_digit_val c Hc) as Hcv.
  assert (Py.digit_val c <> 0) as Hnz.
  { intros H0. apply Hlead. f_equal. apply digit_val_inj. now rewrite H0. }
  pose proof (int_bounds rest Hrest) as Hb.
  pose proof (int_cons c rest) as Hval.
  rewrite Hlen in Hb, Hval. change (10 ^ Z.of_nat 5) with 100000 in Hb, Hval.
  assert (min_val = 100000) as Hmin by reflexivity.
  assert (0 <= Py.int (String c rest) - min_val < draw_range) as Hrange.
  { rewrite draw_range_value, Hmin. lia. }
  split; [exact Hrange |].
  destruct (generate_code_spec _ Hrange) as (_ & Hl & Ha & Hv).
  apply int_inj; try assumption.
  - cbn [String.length]. now rewrite Hl, Hlen.
  - rewrite Hv. lia.
Qed.

End Generator.

(** C5. For every value [r] that [secrets.randbelow] can return in
    [generate_code], that is [0 <= r < max_val - min_val + 1], the code is a
    string of exactly [CODE_LENGTH = 6] decimal digits, and its numeric
    value lies in [[10^(L-1), 10^L - 1]]. *)
Theorem generate_code_six_digits (r : Z) :
  0 <= r < draw_range ->
  Z.of_nat (String.length (generate_code r)) = CODE_LENGTH /\
  Py.all_digits (generate_code r) = true /\
  10 ^ (CODE_LENGTH - 1) <= Py.int (generate_code r) <= 10 ^ CODE_LENGTH - 1.
Proof.
  intros Hr.
  destruct (generate_code_spec r Hr) as (_ & Hlen & Hall & Hval).
  rewrite Hlen, Hall, Hval. rewrite draw_range_value in Hr.
  change min_val with 100000.
  change (10 ^ (CODE_LENGTH - 1)) with 100000.
  change (10 ^ CODE_LENGTH - 1) with 999999.
  repeat split; try reflexivity; lia.
Qed.

Lemma generate_code_six_digits_witness :
  0 <= 23456 < draw_range /\
  Z.of_nat (String.length (generate_code 23456)) = CODE_LENGTH /\
  Py.all_digits (generate_code 23456) = true /\
  10 ^ (CODE_LENGTH - 1) <= Py.int (generate_code 23456) <= 10 ^ CODE_LENGTH - 1.
Proof.
  assert (0 <= 23456 < draw_range) as H by (rewrite draw_range_value; lia).
  split; [exact H | exact (generate_code_six_digits 23456 H)].
Defined.

(** C6, as stated, fails: not every string of six decimal digits is a
    possible output. No draw produces ["000000"]. *)
Lemma generate_code_misses_leading_zero :
  ~ (forall s : string,
       String.length s = 6%nat -> Py.all_digits s = true ->
       exists r : Z, 0 <= r < draw_range /\ generate_code r = s).
Proof.
  intros Hall.
  destruct (Hall "000000" eq_refl eq_refl) as (r & Hr & Hgen).
  destruct (generate_code_spec r Hr) as (_ & _ & _ & Hv).
  rewrite Hgen in Hv. change (Py.int "000000") with 0 in Hv.
  change min_val with 100000 in Hv. lia.
Qed.

(** C6, amended. The generator is uniform over the [9 * 10^5] codes of
    [[10^5, 10^6 - 1]]: a string of six decimal digits that does not start
    with ['0'] is the output of exactly one draw, and one that starts with
    ['0'] is the output of none. *)
Theorem generate_code_uniform (s : string) :
  String.length s = 6%nat -> Py.all_digits s = true ->
  (String.get 0 s <> Some "0"%char ->
     exists r : Z,
       0 <= r < draw_range /\ generate_code r = s /\
       forall r' : Z, 0 <= r' < draw_range -> generate_code r' = s -> r' = r) /\
  (String.get 0 s = Some "0"%char ->
     forall r : Z, 0 <= r < draw_range -> generate_code r <> s).
Proof.
  intros Hlen Hall. split.
  - intros Hlead.
    destruct (generate_code_surj s Hlen Hall Hlead) as [Hrange Hgen].
    exists (Py.int s - min_val). repeat split; try assumption; try lia.
    intros r' Hr' Hgen'. apply generate_code_inj; try assumption.
    now rewrite Hgen, Hgen'.
  - intros Hlead r Hr Hgen.
    destruct (generate_code_spec r Hr) as (_ & _ & _ & Hv).
    rewrite Hgen in Hv.
    destruct s as [|c rest]; [discriminate |].
    cbn [String.get] in Hlead. injection Hlead as ->.
    cbn [Py.all_digits] in Hall. apply andb_prop in Hall as [_ Hrest].
    cbn [String.length] in Hlen. injection Hlen as Hlen.
    pose proof (int_bounds rest Hrest) as Hb.
    rewrite int_cons, Hlen in Hv. rewrite Hlen in Hb.
    change (10 ^ Z.of_nat 5) with 100000 in Hb, Hv.
    change (Py.digit_val "0") with 0 in Hv.
    change min_val with 100000 in Hv. lia.
Qed.

Lemma generate_code_uniform_witness :
  (exists r : Z,
     0 <= r < draw_range /\ generate_code r = "123456" /\
     forall r' : Z, 0 <= r' < draw_range -> generate_code r' = "123456" -> r' = r) /\
  (forall r : Z, 0 <= r < draw_range -> generate_code r <> "012345").
Proof.
  split.
  - apply (generate_code_uniform "123456" eq_refl eq_refl). discriminate.
  - apply (generate_code_uniform "012345" eq_refl eq_refl). reflexivity.
Defined.

(** ** Hashing and comparison *)

Section Hashing.

Lemma ord_inj (x y : ascii) : Hmac.ord x = Hmac.ord y -> x = y.
Proof.
  unfold Hmac.ord. intros H.
  rewrite <- (ascii_nat_embedding x), <- (ascii_nat_embedding y).
  f_equal. lia.
Qed.

(** The accumulator of the comparison loop never returns to zero. *)
Lemma tscmp_loop_zero (left right : string) (result : Z) :
  Hmac.tscmp_loop left right result = 0 -> result = 0.
Proof.
  revert right result.
  induction left as [|x left IH]; intros [|y right] result H; cbn in H; try exact H.
  apply IH in H. now apply Z.lor_eq_0_iff in H.
Qed.

Lemma tscmp_loop_same_length (left right : string) :
  String.length left = String.length right ->
  Hmac.tscmp_loop left right 0 = 0 <-> left = right.
Proof.
  revert right.
  induction left as [|x left IH]; intros [|y right] Hlen; try discriminate.
  - cbn. tauto.
  - cbn [String.length] in Hlen. injection Hlen as Hlen.
    cbn [Hmac.tscmp_loop]. rewrite Z.lor_0_l. split.
    + intros H. pose proof (tscmp_loop_zero _ _ _ H) as Hx.
      apply Z.lxor_eq_0_iff, ord_inj in Hx. subst y.
      rewrite Z.lxor_nilpotent in H. apply IH in H; [| exact Hlen].
      now subst.
    + intros [= -> ->]. rewrite Z.lxor_nilpotent. now apply IH.
Qed.

(** [hmac.compare_digest] decides equality of its two arguments. *)
Lemma compare_digest_true_iff (a b : string) :
  Hmac.compare_digest a b = true <-> a = b.
Proof.
  unfold Hmac.compare_digest.
  destruct (Nat.eqb_spec (String.length a) (String.length b)) as [Hlen | Hlen].
  - rewrite Z.eqb_eq. now apply tscmp_loop_same_length.
  - split.
    + intros H. apply Z.eqb_eq, tscmp_loop_zero in H. discriminate.
    + intros ->. contradiction.
Qed.

Lemma compare_digest_refl (a : string) : Hmac.compare_digest a a = true.
Proof. now apply compare_digest_true_iff. Qed.

Lemma verify_code_true_iff (provided_code stored_hash : string) :
  verify_code provided_code stored_hash = true <->
  hash_code provided_code = stored_hash.
Proof. unfold verify_code. apply compare_digest_true_iff. Qed.

Lemma verify_code_false_iff (provided_code stored_hash : string) :
  verify_code provided_code stored_hash = false <->
  hash_code provided_code <> stored_hash.
Proof.
  rewrite <- verify_code_true_iff.
  destruct (verify_code provided_code stored_hash); split; congruence.
Qed.

(** *** The shape of a digest *)

Lemma hex_char_alphabet (d : Z) : 0 <= d <= 15 -> Sha256.hex_char d ∈ hex_alphabet.
Proof.
  intros Hd. apply list_elem_of_In.
  replace d with (Z.of_nat (Z.to_nat d)) by lia.
  assert (Z.to_nat d < 16)%nat as Hk by lia.
  generalize dependent (Z.to_nat d). clear Hd d. intros k Hk.
  do 16 (destruct k as [|k]; [cbv; tauto |]). lia.
Qed.

Lemma nibble_range (x : Z) : 0 <= Z.land x 0xf <= 15.
Proof.
  assert (Z.land x 0xf = x mod 16) as ->
    by (change 0xf with (Z.ones 4); now rewrite Z.land_ones by lia).
  pose proof (Z.mod_pos_bound x 16 ltac:(lia)). lia.
Qed.

Lemma hex32_alphabet (x : Z) : Forall (fun c => c ∈ hex_alphabet) (Sha256.hex32 x).
Proof.
  unfold Sha256.hex32. apply Forall_forall. intros c Hc.
  apply list_elem_of_In, in_map_iff in Hc as (i & <- & _).
  apply hex_char_alphabet, nibble_range.
Qed.

Lemma hex_state_alphabet (st : Sha256.state) :
  Forall (fun c => c ∈ hex_alphabet) (Sha256.hex_state st).
Proof.
  unfold Sha256.hex_state.
  repeat (apply Forall_app; split); apply hex32_alphabet.
Qed.

Lemma hex_state_length (st : Sha256.state) : length (Sha256.hex_state st) = 64%nat.
Proof. reflexivity. Qed.

End Hashing.

(** ** The handlers *)

Section Handlers.

Implicit Types (active_codes : Store) (phone : string) (rec : OtpRecord).

Lemma lifetime_value : timedelta_minutes CODE_LIFETIME_MINUTES = 300000000.
Proof. reflexivity. Qed.

(** *** [send_otp] *)

Lemma send_otp_delivered active_codes phone r now json_parses :
  send_otp active_codes phone r now (PostReturns 200 json_parses) =
  (<[phone := {| code_hash := hash_code (generate_code r);
                 expiration := now + timedelta_minutes CODE_LIFETIME_MINUTES;
                 attempts := 0 |}]> active_codes,
   ("", 200)).
Proof. reflexivity. Qed.

Lemma send_otp_rejected active_codes phone r now status_code json_parses :
  status_code <> 200 ->
  send_otp active_codes phone r now (PostReturns status_code json_parses) =
  (active_codes, send_failed).
Proof.
  intros Hsc. unfold send_otp.
  destruct (Z.eqb_spec status_code 200) as [? | _]; [contradiction |].
  now destruct json_parses.
Qed.

Lemma send_otp_raised active_codes phone r now :
  send_otp active_codes phone r now PostRaises = (active_codes, send_failed).
Proof. reflexivity. Qed.

(** *** [verify_otp], one lemma for each [return] *)

Lemma verify_line291 active_codes phone provided_code now :
  active_codes !! phone = None ->
  verify_otp_traced active_codes phone provided_code now =
  (Line291, (active_codes, reply_of phone NotFound)).
Proof. intros Hget. unfold verify_otp_traced. now rewrite Hget. Qed.

Lemma verify_line300 active_codes phone rec provided_code now :
  active_codes !! phone = Some rec ->
  provided_code = None \/ provided_code = Some "" ->
  verify_otp_traced active_codes phone provided_code now =
  (Line300, (active_codes, reply_of phone BadRequest)).
Proof.
  intros Hget Hcode. unfold verify_otp_traced. rewrite Hget.
  now destruct Hcode as [-> | ->].
Qed.

Lemma verify_line308 active_codes phone rec code now :
  active_codes !! phone = Some rec ->
  code <> "" ->
  now > expiration rec ->
  verify_otp_traced active_codes phone (Some code) now =
  (Line308, (delete phone active_codes, reply_of phone Expired)).
Proof.
  intros Hget Hcode Hexp. unfold verify_otp_traced. rewrite Hget.
  destruct code as [|c code]; [contradiction |].
  destruct (Z.ltb_spec (expiration rec) now); [reflexivity | lia].
Qed.

Lemma verify_line316 active_codes phone rec code now :
  active_codes !! phone = Some rec ->
  code <> "" ->
  now <= expiration rec ->
  attempts rec >= MAX_VERIFICATION_ATTEMPTS ->
  verify_otp_traced active_codes phone (Some code) now =
  (Line316, (delete phone active_codes, reply_of phone TooManyAttempts)).
Proof.
  intros Hget Hcode Hexp Hatt. unfold verify_otp_traced. rewrite Hget.
  destruct code as [|c code]; [contradiction |].
  destruct (Z.ltb_spec (expiration rec) now); [lia |].
  destruct (Z.leb_spec MAX_VERIFICATION_ATTEMPTS (attempts rec)); [reflexivity | lia].
Qed.

Lemma verify_line339 active_codes phone rec code now :
  active_codes !! phone = Some rec ->
  code <> "" ->
  now <= expiration rec ->
  attempts rec < MAX_VERIFICATION_ATTEMPTS ->
  verify_code code (code_hash rec) = true ->
  verify_otp_traced active_codes phone (Some code) now =
  (Line339, (delete phone active_codes, reply_of phone Success)).
Proof.
  intros Hget Hcode Hexp Hatt Hver. unfold verify_otp_traced. rewrite Hget.
  destruct code as [|c code]; [contradiction |].
  destruct (Z.ltb_spec (expiration rec) now); [lia |].
  destruct (Z.leb_spec MAX_VERIFICATION_ATTEMPTS (attempts rec)); [lia |].
  now rewrite Hver.
Qed.

Lemma verify_line327 active_codes phone rec code now :
  active_codes !! phone = Some rec ->
  code <> "" ->
  now <= expiration rec ->
  attempts rec < MAX_VERIFICATION_ATTEMPTS ->
  verify_code code (code_hash rec) = false ->
  attempts rec + 1 >= MAX_VERIFICATION_ATTEMPTS ->
  verify_otp_traced active_codes phone (Some code) now =
  (Line327, (delete phone active_codes, reply_of phone TooManyAttempts)).
Proof.
  intros Hget Hcode Hexp Hatt Hver Hlast. unfold verify_otp_traced. rewrite Hget.
  destruct code as [|c code]; [contradiction |].
  destruct (Z.ltb_spec (expiration rec) now); [lia |].
  destruct (Z.leb_spec MAX_VERIFICATION_ATTEMPTS (attempts rec)); [lia |].
  rewrite Hver. cbn [negb incr_attempts attempts].
  destruct (Z.leb_spec MAX_VERIFICATION_ATTEMPTS (attempts rec + 1)); [| lia].
  now rewrite delete_insert_eq.
Qed.

Lemma verify_line333 active_codes phone rec code now :
  active_codes !! phone = Some rec ->
  code <> "" ->
  now <= expiration rec ->
  verify_code code (code_hash rec) = false ->
  attempts rec + 1 < MAX_VERIFICATION_ATTEMPTS ->
  verify_otp_traced active_codes phone (Some code) now =
  (Line333,
   (<[phone := incr_attempts rec]> active_codes,
    reply_of phone
      (IncorrectCode (MAX_VERIFICATION_ATTEMPTS - (attempts rec + 1))))).
Proof.
  intros Hget Hcode Hexp Hver Hmore. unfold verify_otp_traced. rewrite Hget.
  destruct code as [|c code]; [contradiction |].
  destruct (Z.ltb_spec (expiration rec) now); [lia |].
  destruct (Z.leb_spec MAX_VERIFICATION_ATTEMPTS (attempts rec)); [lia |].
  rewrite Hver. cbn [negb incr_attempts attempts].
  destruct (Z.leb_spec MAX_VERIFICATION_ATTEMPTS (attempts rec + 1)); [lia |].
  reflexivity.
Qed.

(** The entry read back at lines 322 and 329 is the one just written. *)
Lemma reread_attempts active_codes phone rec :
  attempts <$> (<[phone := incr_attempts rec]> active_codes !! phone) =
  Some (attempts rec + 1).
Proof. now rewrite lookup_insert_eq. Qed.

(** The replies of distinct outcomes are distinct: a reply determines the
    outcome it reports. *)
Lemma reply_of_inj phone (o1 o2 : Outcome) :
  reply_of phone o1 = reply_of phone o2 -> o1 = o2.
Proof.
  destruct o1, o2; cbn; intros H; try reflexivity; try discriminate.
  injection H as H. f_equal.
  apply String.app_inj, append_inj_r in H. now apply str_inj.
Qed.

End Handlers.

(** C1. [verify_otp] is the state machine of the specification: for every
    store, identifier, candidate code and time, its new store and its reply
    are those of [verify_spec], whose checks are, in order: no record
    ([NotFound], store untouched); missing or empty code ([BadRequest],
    store untouched); [now > expiresAt] (record deleted, [Expired]);
    [attempts >= maxAttempts] (record deleted, [TooManyAttempts]); a match
    (record deleted, [Success]); otherwise the attempts are incremented and
    the result is [TooManyAttempts] with the record deleted when the new
    count reaches [maxAttempts], else [IncorrectCode] with
    [maxAttempts - attempts] remaining. *)
Theorem verify_otp_refines_spec (active_codes : Store) (phone : string)
    (provided_code : option string) (now : Z) :
  verify_otp active_codes phone provided_code now =
  (fst (verify_spec MAX_VERIFICATION_ATTEMPTS active_codes phone provided_code now),
   reply_of phone
     (snd (verify_spec MAX_VERIFICATION_ATTEMPTS active_codes phone provided_code now))).
Proof.
  unfold verify_otp, verify_spec.
  destruct (active_codes !! phone) as [rec |] eqn:Hget.
  2: { now rewrite verify_line291. }
  destruct provided_code as [[|ch code] |].
  1, 3: erewrite verify_line300 by eauto; reflexivity.
  assert (String ch code <> "") as Hcode by discriminate.
  generalize dependent (String ch code). clear ch code. intros code Hcode.
  case_bool_decide as Hexp.
  { now rewrite (verify_line308 _ _ rec). }
  case_bool_decide as Hatt.
  { rewrite (verify_line316 _ _ rec) by (assumption || lia). reflexivity. }
  case_bool_decide as Hmatch.
  { rewrite (verify_line339 _ _ rec); try assumption; try lia; [reflexivity |].
    now apply verify_code_true_iff. }
  apply verify_code_false_iff in Hmatch.
  case_bool_decide as Hlast.
  - rewrite (verify_line327 _ _ rec) by (assumption || lia). reflexivity.
  - rewrite (verify_line333 _ _ rec) by (assumption || lia). reflexivity.
Qed.

(** C2. [send_otp] writes to the store only when [requests.post] returned
    status 200. When the call raises, or returns any other status (whether
    or not the error body parses), the store is returned unchanged with the
    status-500 error reply. On status 200 the entry for the identifier is
    set to the digest of the generated code, [now] plus the lifetime, and
    zero attempts, whatever entry was there before. *)
Theorem send_otp_writes_after_delivery (active_codes : Store) (phone : string)
    (r now : Z) :
  send_otp active_codes phone r now PostRaises = (active_codes, send_failed) /\
  (forall (status_code : Z) (json_parses : bool),
     status_code <> 200 ->
     send_otp active_codes phone r now (PostReturns status_code json_parses) =
     (active_codes, send_failed)) /\
  (forall json_parses : bool,
     let record :=
       {| code_hash := hash_code (generate_code r);
          expiration := now + timedelta_minutes CODE_LIFETIME_MINUTES;
          attempts := 0 |} in
     let active_codes' :=
       fst (send_otp active_codes phone r now (PostReturns 200 json_parses)) in
     send_otp active_codes phone r now (PostReturns 200 json_parses) =
       (<[phone := record]> active_codes, ("", 200)) /\
     active_codes' !! phone = Some record /\
     forall other : string, other <> phone ->
       active_codes' !! other = active_codes !! other) /\
  snd send_failed = 500.
Proof.
  split; [apply send_otp_raised |].
  split; [intros; now apply send_otp_rejected |].
  split; [| reflexivity].
  intros json_parses record active_codes'. subst active_codes'.
  rewrite send_otp_delivered. cbn [fst]. split; [reflexivity |].
  split; [apply lookup_insert_eq |].
  intros other Hother. now apply lookup_insert_ne.
Qed.

Lemma send_otp_writes_after_delivery_witness :
  let active_codes : Store :=
    {[ "15551234567" :=
         {| code_hash := hash_code "111111"; expiration := 5; attempts := 2 |} ]} in
  send_otp active_codes "15551234567" 23456 1000 (PostReturns 401 true) =
    (active_codes, send_failed) /\
  fst (send_otp active_codes "15551234567" 23456 1000 (PostReturns 200 true))
    !! "15551234567" =
    Some {| code_hash := hash_code "123456";
            expiration := 300001000; attempts := 0 |} /\
  fst (send_otp active_codes "15551234567" 23456 1000 (PostReturns 200 true))
    !! "15550000000" = active_codes !! "15550000000".
Proof.
  intros active_codes.
  destruct (send_otp_writes_after_delivery active_codes "15551234567" 23456 1000)
    as (_ & Hrej & Hok & _).
  destruct (Hok true) as (_ & Hnew & Hframe).
  split; [apply Hrej; discriminate |].
  split; [exact Hnew | apply Hframe; discriminate].
Defined.

(** C3. One-time use: when [verify_otp] replies with success, the entry of
    the identifier is gone from the store it returns, and verifying the
    same identifier with the same code again, at any time, replies that
    there is no active code and leaves the store as it is. *)
Theorem verify_success_is_one_time (active_codes : Store) (phone : string)
    (provided_code : option string) (now : Z) :
  snd (verify_otp active_codes phone provided_code now) = reply_of phone Success ->
  let active_codes' := fst (verify_otp active_codes phone provided_code now) in
  active_codes' !! phone = None /\
  forall now' : Z,
    verify_otp active_codes' phone provided_code now' =
    (active_codes', reply_of phone NotFound).
Proof.
  intros Hok active_codes'.
  assert (active_codes' = delete phone active_codes) as Hdel.
  { subst active_codes'. revert Hok. unfold verify_otp, verify_otp_traced.
    destruct (active_codes !! phone) as [rec |]; [| discriminate].
    destruct provided_code as [[|ch code] |]; try discriminate.
    repeat (match goal with
            | |- context [if ?b then _ else _] => destruct b
            end; try discriminate).
    reflexivity. }
  rewrite Hdel.
  assert (delete phone active_codes !! phone = None) as Hgone
    by apply lookup_delete_eq.
  split; [exact Hgone |].
  intros now'. unfold verify_otp. now rewrite verify_line291.
Qed.

Lemma verify_success_is_one_time_witness :
  let active_codes :=
    fst (send_otp ∅ "15551234567" 23456 0 (PostReturns 200 true)) in
  snd (verify_otp active_codes "15551234567" (Some "123456") 1000) =
    reply_of "15551234567" Success /\
  fst (verify_otp active_codes "15551234567" (Some "123456") 1000)
    !! "15551234567" = None /\
  snd (verify_otp
         (fst (verify_otp active_codes "15551234567" (Some "123456") 1000))
         "15551234567" (Some "123456") 2000) =
    reply_of "15551234567" NotFound.
Proof.
  intros active_codes.
  assert (snd (verify_otp active_codes "15551234567" (Some "123456") 1000) =
          reply_of "15551234567" Success) as Hok by (vm_compute; reflexivity).
  destruct (verify_success_is_one_time active_codes "15551234567"
              (Some "123456") 1000 Hok) as [Hgone Hreplay].
  split; [exact Hok |]. split; [exact Hgone |].
  now rewrite Hreplay.
Defined.

(** C4. Attempt ceiling, with [MAX_VERIFICATION_ATTEMPTS = 3]. After a code
    has been issued for an identifier, three verifications within the
    code's lifetime, each with a non-empty code that the verifier does not
    accept, reply [IncorrectCode] with 2 remaining, [IncorrectCode] with 1
    remaining, and [TooManyAttempts]; the entry is then gone, and a fourth
    verification replies [NotFound] at any time, even with the code that
    was issued. *)
Theorem three_wrong_codes_consume_the_record (active_codes : Store)
    (phone : string) (r t0 : Z) (json_parses : bool)
    (w1 w2 w3 : string) (t1 t2 t3 : Z) :
  w1 <> "" -> w2 <> "" -> w3 <> "" ->
  verify_code w1 (hash_code (generate_code r)) = false ->
  verify_code w2 (hash_code (generate_code r)) = false ->
  verify_code w3 (hash_code (generate_code r)) = false ->
  t1 <= t0 + timedelta_minutes CODE_LIFETIME_MINUTES ->
  t2 <= t0 + timedelta_minutes CODE_LIFETIME_MINUTES ->
  t3 <= t0 + timedelta_minutes CODE_LIFETIME_MINUTES ->
  let issued :=
    fst (send_otp active_codes phone r t0 (PostReturns 200 json_parses)) in
  let v1 := verify_otp issued phone (Some w1) t1 in
  let v2 := verify_otp (fst v1) phone (Some w2) t2 in
  let v3 := verify_otp (fst v2) phone (Some w3) t3 in
  MAX_VERIFICATION_ATTEMPTS = 3 /\
  snd v1 = reply_of phone (IncorrectCode 2) /\
  snd v2 = reply_of phone (IncorrectCode 1) /\
  snd v3 = reply_of phone TooManyAttempts /\
  fst v3 !! phone = None /\
  forall t4 : Z,
    verify_otp (fst v3) phone (Some (generate_code r)) t4 =
    (fst v3, reply_of phone NotFound).
Proof.
  intros Hw1 Hw2 Hw3 Hv1 Hv2 Hv3 Ht1 Ht2 Ht3 issued v1 v2 v3.
  set (rec0 := {| code_hash := hash_code (generate_code r);
                  expiration := t0 + timedelta_minutes CODE_LIFETIME_MINUTES;
                  attempts := 0 |}).
  assert (issued = <[phone := rec0]> active_codes) as Hissued by reflexivity.
  assert (v1 = (<[phone := incr_attempts rec0]> issued,
                reply_of phone (IncorrectCode 2))) as E1.
  { unfold v1, verify_otp.
    rewrite (verify_line333 _ _ rec0); try assumption; try reflexivity.
    rewrite Hissued. apply lookup_insert_eq. }
  assert (v2 = (<[phone := incr_attempts (incr_attempts rec0)]> (fst v1),
                reply_of phone (IncorrectCode 1))) as E2.
  { unfold v2, verify_otp.
    rewrite (verify_line333 _ _ (incr_attempts rec0)); try assumption;
      try reflexivity.
    rewrite E1. apply lookup_insert_eq. }
  assert (v3 = (delete phone (fst v2), reply_of phone TooManyAttempts)) as E3.
  { unfold v3, verify_otp.
    rewrite (verify_line327 _ _ (incr_attempts (incr_attempts rec0)));
      try assumption; try reflexivity.
    - rewrite E2. apply lookup_insert_eq.
    - subst rec0. unfold MAX_VERIFICATION_ATTEMPTS. cbn. lia. }
  assert (fst v3 !! phone = None) as Hgone.
  { rewrite E3. apply lookup_delete_eq. }
  split; [reflexivity |].
  split; [now rewrite E1 |]. split; [now rewrite E2 |].
  split; [now rewrite E3 |]. split; [exact Hgone |].
  intros t4. unfold verify_otp. now rewrite verify_line291.
Qed.

Lemma three_wrong_codes_consume_the_record_witness :
  let issued :=
    fst (send_otp ∅ "15551234567" 23456 0 (PostReturns 200 true)) in
  let v1 := verify_otp issued "15551234567" (Some "000000") 1000 in
  let v2 := verify_otp (fst v1) "15551234567" (Some "000000") 2000 in
  let v3 := verify_otp (fst v2) "15551234567" (Some "000000") 3000 in
  generate_code 23456 = "123456" /\
  snd v1 = reply_of "15551234567" (IncorrectCode 2) /\
  snd v2 = reply_of "15551234567" (IncorrectCode 1) /\
  snd v3 = reply_of "15551234567" TooManyAttempts /\
  fst v3 !! "15551234567" = None /\
  snd (verify_otp (fst v3) "15551234567" (Some "123456") 4000) =
    reply_of "15551234567" NotFound.
Proof.
  intros issued v1 v2 v3.
  assert (verify_code "000000" (hash_code (generate_code 23456)) = false)
    as Hwrong by (vm_compute; reflexivity).
  assert ("000000" <> "") as Hne by discriminate.
  destruct (three_wrong_codes_consume_the_record ∅ "15551234567" 23456 0 true
              "000000" "000000" "000000" 1000 2000 3000
              Hne Hne Hne Hwrong Hwrong Hwrong
              ltac:(rewrite lifetime_value; lia)
              ltac:(rewrite lifetime_value; lia)
              ltac:(rewrite lifetime_value; lia))
    as (_ & H1 & H2 & H3 & Hgone & H4).
  split; [reflexivity |].
  split; [exact H1 |]. split; [exact H2 |]. split; [exact H3 |].
  split; [exact Hgone |].
  specialize (H4 4000). change (generate_code 23456) with "123456" in H4.
  exact (f_equal snd H4).
Defined.

(** C7, as stated, fails: the generator may produce the same code twice.
    When both issuances draw 23456, the first plaintext ["123456"] is also
    the second one, and verifying with it succeeds. *)
Lemma reissue_of_same_code_accepts_first_plaintext :
  0 <= 23456 < draw_range /\
  let first :=
    fst (send_otp ∅ "15551234567" 23456 0 (PostReturns 200 true)) in
  let second :=
    fst (send_otp first "15551234567" 23456 1000 (PostReturns 200 true)) in
  snd (verify_otp second "15551234567" (Some (generate_code 23456)) 2000) =
  reply_of "15551234567" Success.
Proof.
  split; [rewrite draw_range_value; lia |].
  vm_compute. reflexivity.
Qed.

(** C7, amended. After two successful issuances for one identifier whose
    codes have different digests, verifying with the first plaintext never
    succeeds: within the lifetime of the second code the reply is
    [IncorrectCode] with 2 attempts remaining, and after it the reply is
    [Expired]. *)
Theorem reissue_invalidates_first_code (active_codes : Store) (phone : string)
    (r1 r2 t1 t2 : Z) (json1 json2 : bool) (now : Z) :
  0 <= r1 < draw_range -> 0 <= r2 < draw_range ->
  hash_code (generate_code r1) <> hash_code (generate_code r2) ->
  let first :=
    fst (send_otp active_codes phone r1 t1 (PostReturns 200 json1)) in
  let second :=
    fst (send_otp first phone r2 t2 (PostReturns 200 json2)) in
  let reply := snd (verify_otp second phone (Some (generate_code r1)) now) in
  reply <> reply_of phone Success /\
  (now <= t2 + timedelta_minutes CODE_LIFETIME_MINUTES ->
     reply = reply_of phone (IncorrectCode 2)) /\
  (now > t2 + timedelta_minutes CODE_LIFETIME_MINUTES ->
     reply = reply_of phone Expired).
Proof.
  intros Hr1 Hr2 Hne first second reply.
  set (rec2 := {| code_hash := hash_code (generate_code r2);
                  expiration := t2 + timedelta_minutes CODE_LIFETIME_MINUTES;
                  attempts := 0 |}).
  assert (second !! phone = Some rec2) as Hget by apply lookup_insert_eq.
  assert (generate_code r1 <> "") as Hcode.
  { destruct (generate_code_spec r1 Hr1) as (_ & Hlen & _).
    intros Hnil. now rewrite Hnil in Hlen. }
  assert (now <= t2 + timedelta_minutes CODE_LIFETIME_MINUTES ->
          reply = reply_of phone (IncorrectCode 2)) as Hlive.
  { intros Hnow. unfold reply, verify_otp.
    rewrite (verify_line333 _ _ rec2); try assumption; try reflexivity.
    now apply verify_code_false_iff. }
  assert (now > t2 + timedelta_minutes CODE_LIFETIME_MINUTES ->
          reply = reply_of phone Expired) as Hdead.
  { intros Hnow. unfold reply, verify_otp.
    now rewrite (verify_line308 _ _ rec2). }
  split; [| split; assumption].
  destruct (Z_le_gt_dec now (t2 + timedelta_minutes CODE_LIFETIME_MINUTES))
    as [Hnow | Hnow].
  - rewrite (Hlive Hnow). discriminate.
  - rewrite (Hdead Hnow). discriminate.
Qed.

Lemma reissue_invalidates_first_code_witness :
  let first :=
    fst (send_otp ∅ "15551234567" 23456 0 (PostReturns 200 true)) in
  let second :=
    fst (send_otp first "15551234567" 0 1000 (PostReturns 200 true)) in
  generate_code 23456 = "123456" /\ generate_code 0 = "100000" /\
  snd (verify_otp second "15551234567" (Some "123456") 2000) =
    reply_of "15551234567" (IncorrectCode 2) /\
  snd (verify_otp second "15551234567" (Some "123456") 300001001) =
    reply_of "15551234567" Expired.
Proof.
  intros first second.
  assert (0 <= 23456 < draw_range) as H1 by (rewrite draw_range_value; lia).
  assert (0 <= 0 < draw_range) as H2 by (rewrite draw_range_value; lia).
  assert (hash_code (generate_code 23456) <> hash_code (generate_code 0))
    as Hne by (vm_compute; discriminate).
  split; [reflexivity |]. split; [reflexivity |]. split.
  - destruct (reissue_invalidates_first_code ∅ "15551234567" 23456 0 0 1000
                true true 2000 H1 H2 Hne) as (_ & Hlive & _).
    apply Hlive. rewrite lifetime_value. lia.
  - destruct (reissue_invalidates_first_code ∅ "15551234567" 23456 0 0 1000
                true true 300001001 H1 H2 Hne) as (_ & _ & Hdead).
    apply Hdead. rewrite lifetime_value. lia.
Defined.

(** ** Sequences of requests *)

Section Sequences.

Lemma attempts_below_max_insert (active_codes : Store) (phone : string)
    (rec : OtpRecord) :
  attempts_below_max active_codes ->
  0 <= attempts rec < MAX_VERIFICATION_ATTEMPTS ->
  attempts_below_max (<[phone := rec]> active_codes).
Proof.
  intros Hinv Hrec phone' rec' Hget.
  destruct (decide (phone = phone')) as [-> | Hne].
  - rewrite lookup_insert_eq in Hget. now injection Hget as <-.
  - rewrite lookup_insert_ne in Hget by assumption. eauto.
Qed.

Lemma attempts_below_max_delete (active_codes : Store) (phone : string) :
  attempts_below_max active_codes ->
  attempts_below_max (delete phone active_codes).
Proof.
  intros Hinv phone' rec' Hget.
  apply lookup_delete_Some in Hget as [_ Hget]. eauto.
Qed.

Lemma handle_attempts_below_max (active_codes : Store) (req : Request) :
  attempts_below_max active_codes ->
  attempts_below_max (handle active_codes req).
Proof.
  intros Hinv. destruct req as [phone r now post | phone provided_code now].
  - cbn [handle]. unfold send_otp.
    destruct post as [| status_code json_parses]; [exact Hinv |].
    destruct (negb (status_code =? 200)).
    + now destruct json_parses.
    + cbn [fst]. apply attempts_below_max_insert; [exact Hinv |].
      cbn. unfold MAX_VERIFICATION_ATTEMPTS. lia.
  - cbn [handle]. unfold verify_otp, verify_otp_traced.
    destruct (active_codes !! phone) as [rec |] eqn:Hget; [| exact Hinv].
    destruct provided_code as [[|ch code] |]; try exact Hinv.
    destruct (expiration rec <? now);
      [now apply attempts_below_max_delete |].
    destruct (MAX_VERIFICATION_ATTEMPTS <=? attempts rec);
      [now apply attempts_below_max_delete |].
    destruct (negb (verify_code (String ch code) (code_hash rec)));
      [| now apply attempts_below_max_delete].
    destruct (Z.leb_spec MAX_VERIFICATION_ATTEMPTS (attempts (incr_attempts rec)))
      as [Hlast | Hmore]; cbn [snd fst].
    + rewrite delete_insert_eq. now apply attempts_below_max_delete.
    + apply attempts_below_max_insert; [exact Hinv |].
      specialize (Hinv phone rec Hget). cbn [incr_attempts attempts] in *. lia.
Qed.

Lemma serve_attempts_below_max (reqs : list Request) (active_codes : Store) :
  attempts_below_max active_codes ->
  attempts_below_max (serve reqs active_codes).
Proof.
  revert active_codes.
  induction reqs as [|req reqs IH]; intros active_codes Hinv; [exact Hinv |].
  cbn [serve fold_left]. apply IH, handle_attempts_below_max, Hinv.
Qed.

Lemma served_from_empty (reqs : list Request) (phone : string) (rec : OtpRecord) :
  serve reqs ∅ !! phone = Some rec ->
  0 <= attempts rec < MAX_VERIFICATION_ATTEMPTS.
Proof.
  apply (serve_attempts_below_max reqs ∅).
  intros phone' rec' Hget. now rewrite lookup_empty in Hget.
Qed.

End Sequences.

(** C9. In the store reached from the empty store by any sequence of
    [send_otp] and [verify_otp] requests served one after the other, every
    entry has [0 <= attempts < MAX_VERIFICATION_ATTEMPTS]; hence no further
    [verify_otp] request leaves through the defensive [return] at line 316
    ([attempts >= MAX_VERIFICATION_ATTEMPTS] before any comparison). *)
Theorem sequential_requests_keep_attempts_below_max (reqs : list Request) :
  (forall (phone : string) (rec : OtpRecord),
     serve reqs ∅ !! phone = Some rec ->
     0 <= attempts rec < MAX_VERIFICATION_ATTEMPTS) /\
  (forall (phone : string) (provided_code : option string) (now : Z),
     fst (verify_otp_traced (serve reqs ∅) phone provided_code now) <> Line316).
Proof.
  split; [apply served_from_empty |].
  intros phone provided_code now. unfold verify_otp_traced.
  destruct (serve reqs ∅ !! phone) as [rec |] eqn:Hget; [| discriminate].
  apply served_from_empty in Hget.
  destruct provided_code as [[|ch code] |]; try discriminate.
  destruct (expiration rec <? now); [discriminate |].
  destruct (Z.leb_spec MAX_VERIFICATION_ATTEMPTS (attempts rec)); [lia |].
  destruct (negb (verify_code (String ch code) (code_hash rec)));
    [| discriminate].
  destruct (MAX_VERIFICATION_ATTEMPTS <=? attempts (incr_attempts rec));
    discriminate.
Qed.

Lemma sequential_requests_keep_attempts_below_max_witness :
  let reqs :=
    [ Issue "15551234567" 23456 0 (PostReturns 200 true);
      Verify "15551234567" (Some "000000") 1000;
      Verify "15551234567" (Some "654321") 2000 ] in
  serve reqs ∅ !! "15551234567" =
    Some {| code_hash := hash_code "123456";
            expiration := 300000000; attempts := 2 |} /\
  0 <= 2 < MAX_VERIFICATION_ATTEMPTS.
Proof.
  intros reqs.
  assert (serve reqs ∅ !! "15551234567" =
          Some {| code_hash := hash_code "123456";
                  expiration := 300000000; attempts := 2 |}) as Hget
    by (vm_compute; reflexivity).
  split; [exact Hget |].
  destruct (sequential_requests_keep_attempts_below_max reqs) as [Hinv _].
  exact (Hinv _ _ Hget).
Defined.

(** C10. Frame: a [send_otp] or [verify_otp] request for one identifier
    leaves the entry of every other identifier as it was (present with the
    same digest, expiry and attempts, or absent), whatever the gateway did
    and whatever reply the request got. *)
Theorem requests_leave_other_identifiers (active_codes : Store) (x y : string) :
  x <> y ->
  (forall (r now : Z) (post : PostResult),
     fst (send_otp active_codes x r now post) !! y = active_codes !! y) /\
  (forall (provided_code : option string) (now : Z),
     fst (verify_otp active_codes x provided_code now) !! y = active_codes !! y).
Proof.
  intros Hxy. split.
  - intros r now post. unfold send_otp.
    destruct post as [| status_code json_parses]; [reflexivity |].
    destruct (negb (status_code =? 200)).
    + now destruct json_parses.
    + cbn [fst]. now apply lookup_insert_ne.
  - intros provided_code now. unfold verify_otp, verify_otp_traced.
    destruct (active_codes !! x) as [rec |]; [| reflexivity].
    destruct provided_code as [[|ch code] |]; try reflexivity.
    repeat (match goal with
            | |- context [if ?b then _ else _] => destruct b
            end);
      cbn [snd fst];
      rewrite ?lookup_delete_ne, ?lookup_insert_ne by assumption;
      reflexivity.
Qed.

Lemma requests_leave_other_identifiers_witness :
  let active_codes :=
    fst (send_otp ∅ "15557654321" 0 0 (PostReturns 200 true)) in
  fst (send_otp active_codes "15551234567" 23456 1000 (PostReturns 200 true))
    !! "15557654321" = active_codes !! "15557654321" /\
  fst (verify_otp active_codes "15551234567" (Some "123456") 2000)
    !! "15557654321" = active_codes !! "15557654321" /\
  active_codes !! "15557654321" =
    Some {| code_hash := hash_code "100000";
            expiration := 300000000; attempts := 0 |}.
Proof.
  intros active_codes.
  destruct (requests_leave_other_identifiers active_codes
              "15551234567" "15557654321" ltac:(discriminate)) as [Hsend Hverify].
  split; [apply Hsend |]. split; [apply Hverify |].
  vm_compute. reflexivity.
Defined.

(** * Further properties of the handlers *)

(** X1. Round trip of issue and verify: after [send_otp] has delivered a
    code, [verify_otp] with that code at any time up to and including the
    expiry replies with success and removes the entry. *)
Theorem issued_code_verifies (active_codes : Store) (phone : string)
    (r t0 : Z) (json_parses : bool) (now : Z) :
  0 <= r < draw_range ->
  now <= t0 + timedelta_minutes CODE_LIFETIME_MINUTES ->
  verify_otp (fst (send_otp active_codes phone r t0 (PostReturns 200 json_parses)))
             phone (Some (generate_code r)) now =
  (delete phone active_codes, reply_of phone Success).
Proof.
  intros Hr Hnow. rewrite send_otp_delivered. cbn [fst]. unfold verify_otp.
  erewrite verify_line339; [| apply lookup_insert_eq | | exact Hnow | reflexivity |].
  - cbn [snd]. now rewrite delete_insert_eq.
  - destruct (generate_code_spec r Hr) as (_ & Hlen & _).
    intros Hnil. now rewrite Hnil in Hlen.
  - cbn [code_hash]. now apply verify_code_true_iff.
Qed.

Lemma issued_code_verifies_witness :
  verify_otp (fst (send_otp ∅ "15551234567" 23456 0 (PostReturns 200 true)))
             "15551234567" (Some "123456") 300000000 =
  (delete "15551234567" ∅, reply_of "15551234567" Success).
Proof.
  apply (issued_code_verifies ∅ "15551234567" 23456 0 true 300000000).
  - rewrite draw_range_value. lia.
  - rewrite lifetime_value. lia.
Defined.

(** X2. Expiry: once the lifetime of an issued code has passed, a
    verification with any non-empty code, the issued one included, replies
    that the code has expired and removes the entry; the next verification
    finds no active code. *)
Theorem issued_code_expires (active_codes : Store) (phone : string)
    (r t0 : Z) (json_parses : bool) (code : string) (now : Z) :
  code <> "" ->
  now > t0 + timedelta_minutes CODE_LIFETIME_MINUTES ->
  let expired :=
    verify_otp (fst (send_otp active_codes phone r t0 (PostReturns 200 json_parses)))
               phone (Some code) now in
  expired = (delete phone active_codes, reply_of phone Expired) /\
  forall (provided_code : option string) (now' : Z),
    verify_otp (fst expired) phone provided_code now' =
    (fst expired, reply_of phone NotFound).
Proof.
  intros Hcode Hnow expired.
  assert (expired = (delete phone active_codes, reply_of phone Expired)) as He.
  { unfold expired, verify_otp. rewrite send_otp_delivered. cbn [fst].
    erewrite verify_line308; [| apply lookup_insert_eq | exact Hcode | exact Hnow].
    cbn [snd]. now rewrite delete_insert_eq. }
  split; [exact He |].
  intros provided_code now'. rewrite He. cbn [fst]. unfold verify_otp.
  rewrite verify_line291 by apply lookup_delete_eq. reflexivity.
Qed.

Lemma issued_code_expires_witness :
  let expired :=
    verify_otp (fst (send_otp ∅ "15551234567" 23456 0 (PostReturns 200 true)))
               "15551234567" (Some "123456") 300000001 in
  snd expired = reply_of "15551234567" Expired /\
  snd (verify_otp (fst expired) "15551234567" (Some "123456") 300000002) =
    reply_of "15551234567" NotFound.
Proof.
  intros expired.
  destruct (issued_code_expires ∅ "15551234567" 23456 0 true "123456" 300000001
              ltac:(discriminate) ltac:(rewrite lifetime_value; lia))
    as [He Hnext].
  split.
  - exact (f_equal snd He).
  - exact (f_equal snd (Hnext (Some "123456") 300000002)).
Defined.

(** X3. A success reply is sound: [verify_otp] replies with success only
    when the identifier has an entry, the code is present and non-empty, the
    entry has not expired, fewer than [MAX_VERIFICATION_ATTEMPTS] attempts
    have failed, and the digest of the code is the stored one. *)
Theorem success_is_sound (active_codes : Store) (phone : string)
    (provided_code : option string) (now : Z) :
  snd (verify_otp active_codes phone provided_code now) = reply_of phone Success ->
  exists (rec : OtpRecord) (code : string),
    active_codes !! phone = Some rec /\
    provided_code = Some code /\ code <> "" /\
    now <= expiration rec /\
    attempts rec < MAX_VERIFICATION_ATTEMPTS /\
    hash_code code = code_hash rec.
Proof.
  unfold verify_otp, verify_otp_traced.
  destruct (active_codes !! phone) as [rec |]; [| discriminate].
  destruct provided_code as [[|ch code] |]; try discriminate.
  destruct (Z.ltb_spec (expiration rec) now); [discriminate |].
  destruct (Z.leb_spec MAX_VERIFICATION_ATTEMPTS (attempts rec)); [discriminate |].
  destruct (verify_code (String ch code) (code_hash rec)) eqn:Hver; cbn [negb].
  - intros _. exists rec, (String ch code).
    repeat split; try assumption; try discriminate.
    now apply verify_code_true_iff.
  - destruct (MAX_VERIFICATION_ATTEMPTS <=? attempts (incr_attempts rec));
      discriminate.
Qed.

Lemma success_is_sound_witness :
  let active_codes :=
    fst (send_otp ∅ "15551234567" 23456 0 (PostReturns 200 true)) in
  exists (rec : OtpRecord) (code : string),
    active_codes !! "15551234567" = Some rec /\
    Some "123456" = Some code /\ code <> "" /\
    1000 <= expiration rec /\
    attempts rec < MAX_VERIFICATION_ATTEMPTS /\
    hash_code code = code_hash rec.
Proof.
  intros active_codes.
  apply (success_is_sound active_codes "15551234567" (Some "123456") 1000).
  vm_compute. reflexivity.
Defined.

Section GuessBudget.

Lemma requests_leave_other_identifiers_aux (active_codes : Store) (x y : string) :
  x <> y ->
  (forall (r now : Z) (post : PostResult),
     fst (send_otp active_codes x r now post) !! y = active_codes !! y) /\
  (forall (provided_code : option string) (now : Z),
     fst (verify_otp active_codes x provided_code now) !! y = active_codes !! y).
Proof.
  intros Hxy. split.
  - intros r now post. unfold send_otp.
    destruct post as [| status_code json_parses]; [reflexivity |].
    destruct (negb (status_code =? 200)).
    + now destruct json_parses.
    + cbn [fst]. now apply lookup_insert_ne.
  - intros provided_code now. unfold verify_otp, verify_otp_traced.
    destruct (active_codes !! x) as [rec |]; [| reflexivity].
    destruct provided_code as [[|ch code] |]; try reflexivity.
    repeat (match goal with
            | |- context [if ?b then _ else _] => destruct b
            end);
      cbn [snd fst];
      rewrite ?lookup_delete_ne, ?lookup_insert_ne by assumption;
      reflexivity.
Qed.

Lemma attempts_left_nonneg (phone : string) (active_codes : Store) :
  0 <= attempts_left phone active_codes.
Proof. unfold attempts_left. destruct (active_codes !! phone); lia. Qed.

(** A [verify_otp] request for [phone] that reaches the comparison uses up
    one of the remaining attempts; one that does not reach it uses none. *)
Lemma verify_spends_attempt (phone : string) (active_codes : Store)
    (provided_code : option string) (now : Z) :
  let site := fst (verify_otp_traced active_codes phone provided_code now) in
  let active_codes' := fst (verify_otp active_codes phone provided_code now) in
  attempts_left phone active_codes' +
    (if compares site then 1 else 0) <= attempts_left phone active_codes.
Proof.
  unfold verify_otp, verify_otp_traced, attempts_left.
  destruct (active_codes !! phone) as [rec |] eqn:Hget.
  2: { cbn. rewrite Hget. lia. }
  destruct provided_code as [[|ch code] |].
  1, 3: cbn; rewrite Hget; lia.
  destruct (Z.ltb_spec (expiration rec) now).
  { cbn. rewrite lookup_delete_eq. lia. }
  destruct (Z.leb_spec MAX_VERIFICATION_ATTEMPTS (attempts rec)).
  { cbn. rewrite lookup_delete_eq. lia. }
  destruct (negb (verify_code (String ch code) (code_hash rec))).
  - destruct (Z.leb_spec MAX_VERIFICATION_ATTEMPTS (attempts (incr_attempts rec)));
      cbn [fst snd compares].
    + rewrite lookup_delete_eq. lia.
    + rewrite lookup_insert_eq. cbn [incr_attempts attempts] in *. lia.
  - cbn [fst snd compares]. rewrite lookup_delete_eq. lia.
Qed.

(** Requests for other identifiers, and [send_otp] requests that the
    gateway does not accept, leave the remaining attempts as they are. *)
Lemma handle_keeps_attempts_left (phone : string) (active_codes : Store)
    (req : Request) :
  reissues phone req = false ->
  (forall provided_code now, req <> Verify phone provided_code now) ->
  attempts_left phone (handle active_codes req) = attempts_left phone active_codes.
Proof.
  intros Hre Hver. unfold attempts_left.
  destruct req as [p r now post | p provided_code now]; cbn [handle].
  - destruct post as [| status_code json_parses]; [reflexivity |].
    cbn [reissues] in Hre.
    destruct (Z.eqb_spec status_code 200) as [-> | Hsc].
    + rewrite andb_true_r in Hre. apply bool_decide_eq_false in Hre.
      rewrite send_otp_delivered. cbn [fst].
      now rewrite lookup_insert_ne.
    + now rewrite send_otp_rejected.
  - assert (p <> phone) as Hp by (intros ->; now apply (Hver provided_code now)).
    destruct (requests_leave_other_identifiers_aux active_codes p phone Hp)
      as [_ Hframe].
    now rewrite Hframe.
Qed.

Lemma comparisons_within_attempts_left (phone : string) (reqs : list Request) :
  forall active_codes : Store,
    forallb (fun req => negb (reissues phone req)) reqs = true ->
    Z.of_nat (length (List.filter compares (verify_sites phone reqs active_codes)))
    <= attempts_left phone active_codes.
Proof.
  induction reqs as [|req reqs IH]; intros active_codes Hno.
  - cbn. apply attempts_left_nonneg.
  - cbn [forallb] in Hno. apply andb_prop in Hno as [Hreq Hno].
    apply negb_true_iff in Hreq. specialize (IH (handle active_codes req) Hno).
    cbn [verify_sites].
    destruct req as [p r now post | p provided_code now].
    + rewrite handle_keeps_attempts_left in IH by (assumption || discriminate).
      exact IH.
    + case_bool_decide as Hp.
      * subst p. cbn [handle] in IH.
        pose proof (verify_spends_attempt phone active_codes provided_code now)
          as Hspend. cbv zeta in Hspend.
        cbn [List.filter handle].
        destruct (compares (fst (verify_otp_traced active_codes phone provided_code now)));
          cbn [length]; lia.
      * rewrite handle_keeps_attempts_left in IH; [exact IH | assumption |].
        intros c t [= ? ? ?]. contradiction.
Qed.

End GuessBudget.

(** X4. Guess budget: while requests are served one after the other and
    no further code is delivered for an identifier, at most
    [MAX_VERIFICATION_ATTEMPTS] of the [verify_otp] requests for it compare
    a code with the digest stored by the last [send_otp], however they are
    interleaved with requests for other identifiers and with [send_otp]
    requests that the gateway rejects; for an identifier without an entry
    none does. *)
Theorem at_most_three_guesses_per_code (active_codes : Store) (phone : string)
    (reqs : list Request) :
  forallb (fun req => negb (reissues phone req)) reqs = true ->
  (forall (r t0 : Z) (json_parses : bool),
     Z.of_nat
       (length
          (List.filter compares
             (verify_sites phone reqs
                (fst (send_otp active_codes phone r t0
                        (PostReturns 200 json_parses))))))
     <= MAX_VERIFICATION_ATTEMPTS) /\
  (active_codes !! phone = None ->
   List.filter compares (verify_sites phone reqs active_codes) = []).
Proof.
  intros Hno. split.
  - intros r t0 json_parses.
    etransitivity; [apply comparisons_within_attempts_left, Hno |].
    unfold attempts_left. rewrite send_otp_delivered. cbn [fst].
    rewrite lookup_insert_eq. cbn [attempts].
    unfold MAX_VERIFICATION_ATTEMPTS. lia.
  - intros Hnone.
    pose proof (comparisons_within_attempts_left phone reqs active_codes Hno) as H.
    unfold attempts_left in H. rewrite Hnone in H.
    destruct (List.filter compares (verify_sites phone reqs active_codes));
      [reflexivity | cbn in H; lia].
Qed.

Lemma at_most_three_guesses_per_code_witness :
  let reqs :=
    [ Verify "15551234567" (Some "000000") 1000;
      Issue "15551234567" 7 1500 (PostReturns 500 true);
      Verify "15557654321" (Some "000000") 2000;
      Verify "15551234567" (Some "111111") 3000;
      Verify "15551234567" None 3500;
      Verify "15551234567" (Some "222222") 4000;
      Verify "15551234567" (Some "123456") 5000 ] in
  verify_sites "15551234567" reqs
    (fst (send_otp ∅ "15551234567" 23456 0 (PostReturns 200 true))) =
    [Line333; Line333; Line300; Line327; Line291] /\
  Z.of_nat
    (length
       (List.filter compares
          (verify_sites "15551234567" reqs
             (fst (send_otp ∅ "15551234567" 23456 0 (PostReturns 200 true))))))
  <= MAX_VERIFICATION_ATTEMPTS.
Proof.
  intros reqs. split; [vm_compute; reflexivity |].
  apply (at_most_three_guesses_per_code ∅ "15551234567" reqs).
  vm_compute. reflexivity.
Defined.

Lemma verify_otp_entry_origin (active_codes : Store) (phone : string)
    (provided_code : option string) (now : Z) (other : string) (rec' : OtpRecord) :
  fst (verify_otp active_codes phone provided_code now) !! other = Some rec' ->
  exists rec : OtpRecord,
    active_codes !! other = Some rec /\
    code_hash rec' = code_hash rec /\
    expiration rec' = expiration rec /\
    attempts rec <= attempts rec' <= attempts rec + 1.
Proof.
  assert (forall rec, active_codes !! other = Some rec ->
            exists rec0 : OtpRecord,
              active_codes !! other = Some rec0 /\
              code_hash rec = code_hash rec0 /\
              expiration rec = expiration rec0 /\
              attempts rec0 <= attempts rec <= attempts rec0 + 1) as Hsame.
  { intros rec Hget. exists rec. repeat split; (assumption || lia). }
  unfold verify_otp, verify_otp_traced.
  destruct (active_codes !! phone) as [rec |] eqn:Hget; [| now apply Hsame].
  destruct provided_code as [[|ch code] |]; try now apply Hsame.
  assert (forall m : Store, m = active_codes ->
            delete phone m !! other = Some rec' ->
            exists rec0 : OtpRecord,
              active_codes !! other = Some rec0 /\
              code_hash rec' = code_hash rec0 /\
              expiration rec' = expiration rec0 /\
              attempts rec0 <= attempts rec' <= attempts rec0 + 1) as Hdel.
  { intros m -> Hd. apply lookup_delete_Some in Hd as [_ Hd]. now apply Hsame. }
  destruct (expiration rec <? now); [now apply Hdel |].
  destruct (MAX_VERIFICATION_ATTEMPTS <=? attempts rec); [now apply Hdel |].
  destruct (negb (verify_code (String ch code) (code_hash rec)));
    [| now apply Hdel].
  destruct (MAX_VERIFICATION_ATTEMPTS <=? attempts (incr_attempts rec));
    cbn [fst snd].
  - rewrite delete_insert_eq. now apply Hdel.
  - intros Hins. destruct (decide (phone = other)) as [-> | Hne].
    + rewrite lookup_insert_eq in Hins. injection Hins as <-.
      exists rec. cbn. repeat split; (assumption || lia).
    + rewrite lookup_insert_ne in Hins by assumption. now apply Hsame.
Qed.

(** X5. [verify_otp] only counts attempts: every entry of the store it
    returns was already there with the same digest and the same expiry, and
    with the same number of failed attempts or one less. It creates no
    entry and rewrites no digest. *)
Theorem verify_only_counts_attempts (active_codes : Store) (phone : string)
    (provided_code : option string) (now : Z) (other : string) (rec' : OtpRecord) :
  fst (verify_otp active_codes phone provided_code now) !! other = Some rec' ->
  exists rec : OtpRecord,
    active_codes !! other = Some rec /\
    code_hash rec' = code_hash rec /\
    expiration rec' = expiration rec /\
    attempts rec <= attempts rec' <= attempts rec + 1.
Proof. apply verify_otp_entry_origin. Qed.

Lemma verify_only_counts_attempts_witness :
  let active_codes :=
    fst (send_otp ∅ "15551234567" 23456 0 (PostReturns 200 true)) in
  exists rec : OtpRecord,
    active_codes !! "15551234567" = Some rec /\
    hash_code "123456" = code_hash rec /\
    300000000 = expiration rec /\
    attempts rec <= 1 <= attempts rec + 1.
Proof.
  intros active_codes.
  apply (verify_only_counts_attempts active_codes "15551234567"
           (Some "000000") 1000 "15551234567"
           {| code_hash := hash_code "123456";
              expiration := 300000000; attempts := 1 |}).
  vm_compute. reflexivity.
Defined.

Section Provenance.

Lemma send_otp_not_accepted (active_codes : Store) (phone : string)
    (r now : Z) (post : PostResult) :
  accepted post = false ->
  send_otp active_codes phone r now post = (active_codes, send_failed).
Proof.
  destruct post as [| status_code json_parses]; intros Hpost.
  - apply send_otp_raised.
  - apply send_otp_rejected. cbn in Hpost. now apply Z.eqb_neq.
Qed.

(** An entry of the store after [reqs] was in the store before them, up to
    its attempts, or was written by one of them. *)
Lemma serve_entry_origin (phone : string) (rec : OtpRecord) (reqs : list Request) :
  forall active_codes : Store,
    serve reqs active_codes !! phone = Some rec ->
    (exists rec0 : OtpRecord,
       active_codes !! phone = Some rec0 /\
       code_hash rec = code_hash rec0 /\ expiration rec = expiration rec0) \/
    (exists (r t0 : Z) (json_parses : bool),
       In (Issue phone r t0 (PostReturns 200 json_parses)) reqs /\
       code_hash rec = hash_code (generate_code r) /\
       expiration rec = t0 + timedelta_minutes CODE_LIFETIME_MINUTES).
Proof.
  induction reqs as [|req reqs IH]; intros active_codes Hget.
  - left. exists rec. auto.
  - cbn [serve fold_left] in Hget.
    destruct (IH (handle active_codes req) Hget)
      as [(rec1 & Hget1 & Hh & He) | (r & t0 & js & Hin & Hh & He)].
    2: { right. exists r, t0, js. split; [now right | auto]. }
    destruct req as [p r t0 post | p provided_code now]; cbn [handle] in Hget1.
    + destruct (accepted post) eqn:Hacc.
      * destruct post as [| status_code json_parses]; [discriminate |].
        cbn in Hacc. apply Z.eqb_eq in Hacc. subst status_code.
        rewrite send_otp_delivered in Hget1. cbn [fst] in Hget1.
        destruct (decide (p = phone)) as [-> | Hp].
        -- rewrite lookup_insert_eq in Hget1. injection Hget1 as <-.
           right. exists r, t0, json_parses.
           split; [now left | now rewrite Hh, He].
        -- rewrite lookup_insert_ne in Hget1 by assumption.
           left. exists rec1. auto.
      * rewrite send_otp_not_accepted in Hget1 by assumption.
        left. exists rec1. auto.
    + apply verify_otp_entry_origin in Hget1 as (rec0 & Hget0 & Hh0 & He0 & _).
      left. exists rec0. split; [assumption |]. split; congruence.
Qed.

End Provenance.

(** X6. Provenance of entries: in the store reached from the empty store
    by any sequence of requests, an identifier has an entry only if one of
    the requests was a [send_otp] for it that the gateway accepted, and the
    entry then holds the digest of a code generated for such a request and
    that request's time plus the lifetime. *)
Theorem entries_come_from_delivered_codes (reqs : list Request)
    (phone : string) (rec : OtpRecord) :
  serve reqs ∅ !! phone = Some rec ->
  exists (r t0 : Z) (json_parses : bool),
    In (Issue phone r t0 (PostReturns 200 json_parses)) reqs /\
    code_hash rec = hash_code (generate_code r) /\
    expiration rec = t0 + timedelta_minutes CODE_LIFETIME_MINUTES.
Proof.
  intros Hget.
  destruct (serve_entry_origin phone rec reqs ∅ Hget)
    as [(rec0 & Hget0 & _) | H]; [| exact H].
  now rewrite lookup_empty in Hget0.
Qed.

Lemma entries_come_from_delivered_codes_witness :
  let reqs :=
    [ Issue "15551234567" 0 0 (PostReturns 200 true);
      Verify "15551234567" (Some "000000") 1000;
      Issue "15551234567" 23456 2000 (PostReturns 200 false);
      Issue "15551234567" 5 3000 PostRaises;
      Verify "15551234567" (Some "000000") 4000 ] in
  exists (r t0 : Z) (json_parses : bool),
    In (Issue "15551234567" r t0 (PostReturns 200 json_parses)) reqs /\
    hash_code "123456" = hash_code (generate_code r) /\
    300002000 = t0 + timedelta_minutes CODE_LIFETIME_MINUTES.
Proof.
  intros reqs.
  apply (entries_come_from_delivered_codes reqs "15551234567"
           {| code_hash := hash_code "123456";
              expiration := 300002000; attempts := 1 |}).
  vm_compute. reflexivity.
Defined.

Lemma length_string_of_list_ascii (l : list ascii) :
  String.length (string_of_list_ascii l) = length l.
Proof. induction l as [|c l IH]; cbn; [reflexivity | now rewrite IH]. Qed.

(** X7. The digest that [hash_code] returns is always a string of 64
    characters, each one of [0123456789abcdef], whatever the code; so a
    code that is not itself 64 characters long, such as every generated
    code, is never equal to the digest stored for it. *)
Theorem hash_code_is_64_hex_characters (code : string) :
  String.length (hash_code code) = 64%nat /\
  Forall (fun c => c ∈ hex_alphabet) (list_ascii_of_string (hash_code code)) /\
  (String.length code <> 64%nat -> hash_code code <> code) /\
  (forall r : Z, 0 <= r < draw_range ->
     hash_code (generate_code r) <> generate_code r).
Proof.
  assert (String.length (hash_code code) = 64%nat) as Hlen.
  { unfold hash_code, Sha256.hexdigest.
    now rewrite length_string_of_list_ascii, hex_state_length. }
  split; [exact Hlen |]. split; [| split].
  - unfold hash_code, Sha256.hexdigest.
    rewrite list_ascii_of_string_of_list_ascii. apply hex_state_alphabet.
  - intros Hne Heq. now rewrite Heq in Hlen.
  - intros r Hr Heq.
    destruct (generate_code_spec r Hr) as (_ & Hl & _).
    apply (f_equal String.length) in Heq. rewrite Hl in Heq.
    unfold hash_code, Sha256.hexdigest in Heq.
    rewrite length_string_of_list_ascii, hex_state_length in Heq. discriminate.
Qed.

Lemma hash_code_is_64_hex_characters_witness :
  hash_code "123456" <> "123456" /\
  hash_code (generate_code 23456) <> generate_code 23456.
Proof.
  destruct (hash_code_is_64_hex_characters "123456") as (_ & _ & Hne & Hgen).
  split.
  - apply Hne. discriminate.
  - apply Hgen. rewrite draw_range_value. lia.
Defined.

(** X8. In [generate_code] the call of [zfill] never pads: for every draw
    the code is the plain decimal notation of [min_val + r]. *)
Theorem generate_code_never_pads (r : Z) :
  0 <= r < draw_range ->
  generate_code r = Py.str (min_val + r).
Proof. intros Hr. now destruct (generate_code_spec r Hr) as [H _]. Qed.

Lemma generate_code_never_pads_witness :
  generate_code 899999 = Py.str (min_val + 899999).
Proof.
  apply generate_code_never_pads. rewrite draw_range_value. lia.
Defined.

(** X9. A failed issuance keeps the code in force: when a code has been
    delivered and a later [send_otp] for the same identifier fails at the
    gateway, the reply is the status-500 error, and the code delivered
    earlier still verifies within its own lifetime. *)
Theorem failed_reissue_keeps_code (active_codes : Store) (phone : string)
    (r t0 : Z) (json_parses : bool) (r' t1 : Z) (post : PostResult) (now : Z) :
  0 <= r < draw_range ->
  accepted post = false ->
  now <= t0 + timedelta_minutes CODE_LIFETIME_MINUTES ->
  let issued :=
    fst (send_otp active_codes phone r t0 (PostReturns 200 json_parses)) in
  let again := send_otp issued phone r' t1 post in
  again = (issued, send_failed) /\
  verify_otp (fst again) phone (Some (generate_code r)) now =
  (delete phone active_codes, reply_of phone Success).
Proof.
  intros Hr Hpost Hnow issued again.
  assert (again = (issued, send_failed)) as Hagain
    by now apply send_otp_not_accepted.
  split; [exact Hagain |].
  rewrite Hagain. cbn [fst]. unfold issued, verify_otp.
  rewrite send_otp_delivered. cbn [fst].
  erewrite verify_line339; [| apply lookup_insert_eq | | exact Hnow | reflexivity |].
  - cbn [snd]. now rewrite delete_insert_eq.
  - destruct (generate_code_spec r Hr) as (_ & Hlen & _).
    intros Hnil. now rewrite Hnil in Hlen.
  - cbn [code_hash]. now apply verify_code_true_iff.
Qed.

Lemma failed_reissue_keeps_code_witness :
  let issued :=
    fst (send_otp ∅ "15551234567" 23456 0 (PostReturns 200 true)) in
  let again := send_otp issued "15551234567" 7 1000 (PostReturns 500 false) in
  again = (issued, send_failed) /\
  verify_otp (fst again) "15551234567" (Some "123456") 2000 =
  (delete "15551234567" ∅, reply_of "15551234567" Success).
Proof.
  apply (failed_reissue_keeps_code ∅ "15551234567" 23456 0 true 7 1000
           (PostReturns 500 false) 2000).
  - rewrite draw_range_value. lia.
  - reflexivity.
  - rewrite lifetime_value. lia.
Defined.

(** X10. Under sequential operation a wrong code is always answered with 1
    or 2 attempts remaining: in a store reached from the empty store, a
    reply [IncorrectCode n] has [n = 1] or [n = 2], and the entry stays with
    [MAX_VERIFICATION_ATTEMPTS - n] failed attempts. *)
Theorem remaining_attempts_is_one_or_two (reqs : list Request) (phone : string)
    (provided_code : option string) (now n : Z) :
  snd (verify_otp (serve reqs ∅) phone provided_code now) =
    reply_of phone (IncorrectCode n) ->
  (n = 1 \/ n = 2) /\
  attempts <$> (fst (verify_otp (serve reqs ∅) phone provided_code now) !! phone) =
    Some (MAX_VERIFICATION_ATTEMPTS - n).
Proof.
  pose proof (served_from_empty reqs phone) as Hinv.
  unfold verify_otp, verify_otp_traced.
  destruct (serve reqs ∅ !! phone) as [rec |]; [| discriminate].
  specialize (Hinv rec eq_refl).
  destruct provided_code as [[|ch code] |]; try discriminate.
  destruct (expiration rec <? now); [discriminate |].
  destruct (MAX_VERIFICATION_ATTEMPTS <=? attempts rec); [discriminate |].
  destruct (negb (verify_code (String ch code) (code_hash rec))); [| discriminate].
  destruct (Z.leb_spec MAX_VERIFICATION_ATTEMPTS (attempts (incr_attempts rec)))
    as [| Hmore]; [discriminate |].
  cbn [fst snd]. intros Hreply.
  change (reply_of phone
            (IncorrectCode (MAX_VERIFICATION_ATTEMPTS - attempts (incr_attempts rec))) =
          reply_of phone (IncorrectCode n)) in Hreply.
  apply reply_of_inj in Hreply. injection Hreply as <-.
  rewrite lookup_insert_eq. cbn [incr_attempts attempts fmap option_fmap option_map] in *.
  unfold MAX_VERIFICATION_ATTEMPTS in *. split; [lia |]. f_equal. lia.
Qed.

Lemma remaining_attempts_is_one_or_two_witness :
  let reqs :=
    [ Issue "15551234567" 23456 0 (PostReturns 200 true);
      Verify "15551234567" (Some "000000") 1000 ] in
  (1 = 1 \/ 1 = 2) /\
  attempts <$> (fst (verify_otp (serve reqs ∅) "15551234567" (Some "654321") 2000)
                  !! "15551234567") =
    Some (MAX_VERIFICATION_ATTEMPTS - 1).
Proof.
  intros reqs.
  apply (remaining_attempts_is_one_or_two reqs "15551234567" (Some "654321") 2000 1).
  vm_compute. reflexivity.
Defined.

(** * Start-up *)

Section LoadConfig.

Example load_config_sample :
  let good :=
    JDict [("waba_id", JStr "1"); ("access_token", JStr "t");
           ("phone_number_id", JStr "2"); ("template_id", JStr "3")] in
  load_config [NoFile; Loads good; NoFile] = Ok good /\
  load_config [NoFile; Loads (JDict [("waba_id", JStr "1"); ("access_token", JStr "")]); Loads good] =
    Raise (ValueError "Missing access_token in whatsapp-info.json") /\
  load_config [Loads (JList []); Loads good] = Raise AttributeError /\
  load_config [NoFile; NoFile; NoFile] =
    Raise (FileNotFoundError "Missing whatsapp-info.json file. Please run setup.py first.").
Proof. repeat split; reflexivity. Qed.

Lemma get_dict (fields : list (string * Json)) (key : string) :
  PyJson.truthy (from_option id JNull (PyJson.lookup_item key fields)) =
  key_set fields key.
Proof. unfold key_set. now destruct (PyJson.lookup_item key fields). Qed.

(** The loop over the keys passes when all of them are set, and otherwise
    stops at the first that is not. *)
Lemma check_required_dict (fields : list (string * Json)) (keys : list string) :
  (forallb (key_set fields) keys = true /\
   check_required (JDict fields) keys = Ok tt) \/
  (exists before key after,
     keys = before ++ key :: after /\
     forallb (key_set fields) before = true /\
     key_set fields key = false /\
     check_required (JDict fields) keys =
       Raise (ValueError ("Missing " +:+ key +:+ " in " +:+ CONFIG_FILENAME))).
Proof.
  induction keys as [|key keys IH].
  - left. split; reflexivity.
  - cbn [check_required PyJson.get mbind result_bind].
    rewrite get_dict. cbn [forallb].
    destruct (key_set fields key) eqn:Hkey; cbn [negb andb].
    + destruct IH as [[Hall Hok] | (before & k & after & -> & Hb & Hk & Herr)].
      * left. split; assumption.
      * right. exists (key :: before), k, after.
        split; [reflexivity |]. cbn [forallb]. rewrite Hkey, Hb. auto.
    + right. exists [], key, keys. repeat split; assumption.
Qed.

Lemma check_required_not_dict (config : Json) (key : string) (keys : list string) :
  (forall fields, config <> JDict fields) ->
  check_required config (key :: keys) = Raise AttributeError.
Proof.
  intros Hnd. cbn [check_required].
  destruct config as [| | | | | fields]; try reflexivity.
  now destruct (Hnd fields).
Qed.

Lemma load_config_skips (pre rest : list PathState) :
  Forall (fun st => st = NoFile) pre ->
  load_config (pre ++ rest) = load_config rest.
Proof.
  induction 1 as [|st pre -> _ IH]; [reflexivity |].
  cbn [app load_config]. exact IH.
Qed.

Lemma load_config_ok_inv (config_paths : list PathState) (config : Json) :
  load_config config_paths = Ok config ->
  exists pre post,
    config_paths = pre ++ Loads config :: post /\
    Forall (fun st => st = NoFile) pre /\
    check_required config required_keys = Ok tt.
Proof.
  induction config_paths as [|st paths IH]; [discriminate |].
  destruct st as [| config' | e]; cbn [load_config].
  - intros H. destruct (IH H) as (pre & post & -> & Hpre & Hok).
    exists (NoFile :: pre), post. repeat split; [| assumption].
    constructor; [reflexivity | assumption].
  - destruct (check_required config' required_keys) as [[] | e] eqn:Hchk;
      cbn [mbind result_bind]; [| discriminate].
    intros [= <-]. exists [], paths. repeat split; [constructor | assumption].
  - discriminate.
Qed.

End LoadConfig.

(** X11. [load_config] returns a configuration exactly when the first
    candidate path at which a file exists loads as a [dict] in which all
    four required keys have truthy values; what it returns is that [dict],
    unchanged. *)
Theorem load_config_returns_first_valid_file (config_paths : list PathState)
    (config : Json) :
  load_config config_paths = Ok config <->
  exists (pre post : list PathState) (fields : list (string * Json)),
    config_paths = pre ++ Loads config :: post /\
    Forall (fun st => st = NoFile) pre /\
    config = JDict fields /\
    forallb (key_set fields) required_keys = true.
Proof.
  split.
  - intros H. apply load_config_ok_inv in H as (pre & post & -> & Hpre & Hok).
    exists pre, post.
    destruct config as [| | | | | fields];
      try (unfold required_keys in Hok;
           rewrite check_required_not_dict in Hok by discriminate; discriminate).
    exists fields. repeat split; try assumption.
    destruct (check_required_dict fields required_keys)
      as [[Hall _] | (? & ? & ? & _ & _ & _ & Herr)]; [exact Hall |].
    rewrite Herr in Hok. discriminate.
  - intros (pre & post & fields & -> & Hpre & -> & Hall).
    rewrite load_config_skips by assumption. cbn [load_config].
    destruct (check_required_dict fields required_keys)
      as [[_ Hok] | (before & key & after & Hkeys & Hb & Hk & _)].
    + now rewrite Hok.
    + rewrite Hkeys, forallb_app in Hall. cbn [forallb] in Hall.
      rewrite Hk, andb_false_r in Hall. discriminate.
Qed.

Lemma load_config_returns_first_valid_file_witness :
  let good :=
    JDict [("waba_id", JStr "1"); ("access_token", JStr "t");
           ("phone_number_id", JStr "2"); ("template_id", JStr "3")] in
  load_config [NoFile; Loads good; Loads (JDict [])] = Ok good.
Proof.
  intros good.
  apply (load_config_returns_first_valid_file [NoFile; Loads good; Loads (JDict [])] good).
  exists [NoFile], [Loads (JDict [])],
    [("waba_id", JStr "1"); ("access_token", JStr "t");
     ("phone_number_id", JStr "2"); ("template_id", JStr "3")].
  repeat split; try reflexivity. repeat constructor.
Defined.

(** X12. The first existing file decides: candidate paths without a file
    are skipped, later paths are never read once a file exists, whether it
    is valid or not, and when no candidate path has a file the result is
    [FileNotFoundError]. *)
Theorem load_config_first_existing_path_decides (pre post : list PathState)
    (st : PathState) :
  Forall (fun st' => st' = NoFile) pre ->
  (st <> NoFile -> load_config (pre ++ st :: post) = load_config [st]) /\
  load_config pre =
    Raise (FileNotFoundError
             "Missing whatsapp-info.json file. Please run setup.py first.").
Proof.
  intros Hpre. split.
  - intros Hst. rewrite load_config_skips by assumption.
    destruct st as [| config | e]; [contradiction | | reflexivity].
    cbn [load_config]. reflexivity.
  - rewrite <- (app_nil_r pre). now rewrite load_config_skips.
Qed.

Lemma load_config_first_existing_path_decides_witness :
  let good :=
    JDict [("waba_id", JStr "1"); ("access_token", JStr "t");
           ("phone_number_id", JStr "2"); ("template_id", JStr "3")] in
  load_config ([NoFile] ++ Loads (JDict []) :: [Loads good]) =
    load_config [Loads (JDict [])] /\
  load_config [NoFile] =
    Raise (FileNotFoundError
             "Missing whatsapp-info.json file. Please run setup.py first.").
Proof.
  intros good.
  destruct (load_config_first_existing_path_decides [NoFile] [Loads good]
              (Loads (JDict [])) ltac:(repeat constructor)) as [Hfirst Hnone].
  split; [apply Hfirst; discriminate | exact Hnone].
Defined.

(** X13. Errors of an existing file: a loaded value that is not a [dict]
    raises [AttributeError]; a [dict] in which some required key is missing
    or has a falsy value raises [ValueError] naming the first such key in
    the order waba_id, access_token, phone_number_id, template_id; an
    exception of [open] or [json.load] is passed on. *)
Theorem load_config_reports_first_missing_key (post : list PathState) :
  (forall config : Json,
     (forall fields, config <> JDict fields) ->
     load_config (Loads config :: post) = Raise AttributeError) /\
  (forall (fields : list (string * Json)) (before after : list string)
          (key : string),
     required_keys = before ++ key :: after ->
     forallb (key_set fields) before = true ->
     key_set fields key = false ->
     load_config (Loads (JDict fields) :: post) =
       Raise (ValueError ("Missing " +:+ key +:+ " in whatsapp-info.json"))) /\
  (forall e : Exception, load_config (LoadRaises e :: post) = Raise e).
Proof.
  split; [| split].
  - intros config Hnd. cbn [load_config].
    unfold required_keys. now rewrite check_required_not_dict.
  - intros fields before after key Hkeys Hb Hk. cbn [load_config].
    destruct (check_required_dict fields required_keys)
      as [[Hall _] | (before' & key' & after' & Hkeys' & Hb' & Hk' & Herr)].
    + rewrite Hkeys, forallb_app in Hall. cbn [forallb] in Hall.
      rewrite Hk, andb_false_r in Hall. discriminate.
    + rewrite Herr. cbn [mbind result_bind].
      enough (key' = key) as -> by reflexivity.
      (* both are the first key that is not set *)
      clear Herr. rewrite Hkeys in Hkeys'. clear Hkeys.
      revert before' Hkeys' Hb'.
      induction before as [|b before IH]; intros [|b' before'] Hkeys' Hb'.
      * now injection Hkeys'.
      * injection Hkeys' as -> _. cbn [forallb] in Hb'.
        rewrite Hk in Hb'. discriminate.
      * injection Hkeys' as -> _. cbn [forallb] in Hb.
        rewrite Hk' in Hb. discriminate.
      * injection Hkeys' as -> Hkeys'. cbn [forallb] in Hb, Hb'.
        apply andb_prop in Hb as [_ Hb]. apply andb_prop in Hb' as [_ Hb'].
        now apply (IH Hb before').
  - reflexivity.
Qed.

Lemma load_config_reports_first_missing_key_witness :
  load_config [Loads (JInt 5)] = Raise AttributeError /\
  load_config
    [Loads (JDict [("waba_id", JStr "1"); ("access_token", JStr "t");
                   ("phone_number_id", JInt 0); ("template_id", JNull)])] =
    Raise (ValueError "Missing phone_number_id in whatsapp-info.json").
Proof.
  destruct (load_config_reports_first_missing_key []) as (Hnd & Hmiss & _).
  split.
  - apply Hnd. discriminate.
  - apply (Hmiss _ ["waba_id"; "access_token"] ["template_id"] "phone_number_id");
      reflexivity.
Defined.

Example fetch_template_name_sample :
  fetch_template_name sample_api 1 sample_config = None /\
  fetch_template_name sample_api 2 sample_config = Some (Ok (JStr "otp_code")) /\
  fetch_template_name sample_api 9 sample_config = Some (Ok (JStr "otp_code")) /\
  fetch_template_name sample_api 9
    {| waba_id := "42"; access_token := "secret"; template_id := "6" |} =
    Some (Raise (ValueError_not_approved (JStr "REJECTED"))) /\
  fetch_template_name sample_api 9
    {| waba_id := "42"; access_token := "secret"; template_id := "8" |} =
    Some (Raise (ValueError "Template not found: 8")) /\
  fetch_template_name sample_api 9
    {| waba_id := "42"; access_token := "wrong"; template_id := "7" |} =
    Some (Raise (LibraryError "HTTPError")).
Proof. repeat split; reflexivity. Qed.

Section FetchTemplateName.

Variable http_get : string -> option string -> result Json.
Variable config : Config.

(** More fuel does not change a result. *)
Lemma fetch_loop_more_fuel (fuel : nat) :
  forall (url : Json) (params : option string) (res : result Json),
    fetch_loop http_get fuel config url params = Some res ->
    fetch_loop http_get (S fuel) config url params = Some res.
Proof.
  induction fuel as [|fuel IH]; intros url params res; [discriminate |].
  intros H. cbn [fetch_loop] in H. cbn [fetch_loop].
  destruct (negb (PyJson.truthy url)); [exact H |].
  destruct (requests_get http_get url params) as [data | e]; [| exact H].
  destruct (scan_page config data) as [[name |] | e]; try exact H.
  destruct (next_url data) as [next | e]; [| exact H].
  now apply IH.
Qed.

Lemma fetch_loop_fuel_le (fuel fuel' : nat) (url : Json)
    (params : option string) (res : result Json) :
  (fuel <= fuel')%nat ->
  fetch_loop http_get fuel config url params = Some res ->
  fetch_loop http_get fuel' config url params = Some res.
Proof.
  induction 1 as [|fuel' _ IH]; [trivial |].
  intros H. now apply fetch_loop_more_fuel, IH.
Qed.

(** The [for] loop returns a name only for an item that is a [dict] with
    the configured id and the status APPROVED. *)
Lemma scan_templates_found (templates : list Json) (name : Json) :
  scan_templates config templates = Ok (Some name) ->
  exists fields : list (string * Json),
    In (JDict fields) templates /\
    field fields "id" = JStr (template_id config) /\
    field fields "status" = JStr "APPROVED" /\
    name = field fields "name".
Proof.
  induction templates as [|template templates IH]; [discriminate |].
  cbn [scan_templates].
  destruct template as [| | | | | fields]; try discriminate.
  cbn [PyJson.get mbind result_bind]. fold (field fields "id").
  fold (field fields "status"). fold (field fields "name").
  destruct (PyJson.eq_str (field fields "id") (template_id config)) eqn:Hid.
  - destruct (PyJson.eq_str (field fields "status") "APPROVED") eqn:Hst;
      cbn [negb]; [| discriminate].
    intros [= <-]. exists fields. split; [now left |].
    unfold PyJson.eq_str in Hid, Hst.
    destruct (field fields "id") as [| | | s | |]; try discriminate.
    destruct (field fields "status") as [| | | s' | |]; try discriminate.
    apply String.eqb_eq in Hid, Hst. now subst.
  - intros H. destruct (IH H) as (fields' & Hin & Hrest).
    exists fields'. split; [now right | exact Hrest].
Qed.

Lemma scan_page_found (data : Json) (name : Json) :
  scan_page config data = Ok (Some name) ->
  exists page templates fields : _,
    data = JDict page /\
    PyJson.lookup_item "data" page = Some (JList templates) /\
    In (JDict fields) templates /\
    field fields "id" = JStr (template_id config) /\
    field fields "status" = JStr "APPROVED" /\
    name = field fields "name".
Proof.
  unfold scan_page.
  destruct data as [| | | | | page]; try discriminate.
  cbn [PyJson.get mbind result_bind].
  destruct (PyJson.lookup_item "data" page) as [listed |] eqn:Hdata;
    cbn [from_option id]; [| discriminate].
  destruct listed as [| | | s | templates | fields]; try discriminate.
  - cbn [PyJson.iterate]. intros H. exfalso.
    destruct s as [|c s]; cbn in H; discriminate.
  - cbn [PyJson.iterate]. intros H.
    destruct (scan_templates_found templates name H) as (fields & Hin & Hrest).
    exists page, templates, fields. auto.
  - cbn [PyJson.iterate]. intros H. exfalso.
    destruct fields as [|[k v] fields]; cbn in H; discriminate.
Qed.

Lemma fetch_loop_found (fuel : nat) :
  forall (url : Json) (params : option string) (name : Json),
    fetch_loop http_get fuel config url params = Some (Ok name) ->
    exists (url' : string) (params' : option string) page templates fields,
      http_get url' params' = Ok (JDict page) /\
      PyJson.lookup_item "data" page = Some (JList templates) /\
      In (JDict fields) templates /\
      field fields "id" = JStr (template_id config) /\
      field fields "status" = JStr "APPROVED" /\
      name = field fields "name".
Proof.
  induction fuel as [|fuel IH]; intros url params name; [discriminate |].
  cbn [fetch_loop].
  destruct (negb (PyJson.truthy url)); [discriminate |].
  destruct (requests_get http_get url params) as [data | e] eqn:Hget;
    [| discriminate].
  destruct (scan_page config data) as [[name' |] | e] eqn:Hscan;
    try discriminate.
  - intros [= ->].
    destruct (scan_page_found data name Hscan)
      as (page & templates & fields & -> & Hrest).
    destruct url as [| | | s | |]; try discriminate.
    exists s, params, page, templates, fields. auto.
  - destruct (next_url data) as [next | e]; [| discriminate]. apply IH.
Qed.

(** One turn of the loop on a page without a match. *)
Lemma fetch_loop_turn (fuel : nat) (url : Json) (params : option string)
    (next : Json) :
  turns_page http_get config url params next ->
  fetch_loop http_get (S fuel) config url params =
  fetch_loop http_get fuel config next None.
Proof.
  intros (Hurl & data & Hget & Hscan & Hnext).
  cbn [fetch_loop]. now rewrite Hurl, Hget, Hscan, Hnext.
Qed.

Lemma fetch_loop_turns (nexts : list Json) (final : Json) :
  forall (fuel : nat) (url : Json) (params : option string),
    turns_pages http_get config url params (nexts ++ [final]) ->
    fetch_loop http_get (S (length nexts) + fuel) config url params =
    fetch_loop http_get fuel config final None.
Proof.
  induction nexts as [|next rest IH]; intros fuel url params [Hturn Hrest].
  - cbn [length Nat.add]. now apply fetch_loop_turn.
  - cbn [length Nat.add]. rewrite (fetch_loop_turn _ _ _ next Hturn).
    now apply IH.
Qed.

End FetchTemplateName.

(** X14. [fetch_template_name] only returns the name of an approved
    template with the configured id: whenever it returns, some page that the
    API served lists a template whose id is [config["template_id"]] and
    whose status is APPROVED, and the value returned is that template's
    name ([None] when it has none). *)
Theorem fetch_template_name_returns_approved
    (http_get : string -> option string -> result Json) (config : Config)
    (fuel : nat) (name : Json) :
  fetch_template_name http_get fuel config = Some (Ok name) ->
  exists (url : string) (params : option string)
         (page : list (string * Json)) (templates : list Json)
         (fields : list (string * Json)),
    http_get url params = Ok (JDict page) /\
    PyJson.lookup_item "data" page = Some (JList templates) /\
    In (JDict fields) templates /\
    field fields "id" = JStr (template_id config) /\
    field fields "status" = JStr "APPROVED" /\
    name = field fields "name".
Proof. apply fetch_loop_found. Qed.

Lemma fetch_template_name_returns_approved_witness :
  exists (url : string) (params : option string)
         (page : list (string * Json)) (templates : list Json)
         (fields : list (string * Json)),
    sample_api url params = Ok (JDict page) /\
    PyJson.lookup_item "data" page = Some (JList templates) /\
    In (JDict fields) templates /\
    field fields "id" = JStr (template_id sample_config) /\
    field fields "status" = JStr "APPROVED" /\
    JStr "otp_code" = field fields "name".
Proof.
  apply (fetch_template_name_returns_approved sample_api sample_config 2
           (JStr "otp_code")).
  reflexivity.
Defined.

(** X15. The first template with the configured id decides. When the
    first page lists [dict] templates with other ids and then one with the
    configured id, the function returns that template's name if its status
    is APPROVED and raises the not-approved [ValueError] with its status
    otherwise, after this one request, whatever follows on the page or on
    later pages. *)
Theorem fetch_template_name_first_match_decides
    (http_get : string -> option string -> result Json) (config : Config)
    (fuel : nat) (page : list (string * Json))
    (before after : list Json) (fields : list (string * Json)) :
  http_get (templates_url config) (Some (access_token config)) = Ok (JDict page) ->
  PyJson.lookup_item "data" page = Some (JList (before ++ JDict fields :: after)) ->
  Forall (fun template =>
            exists other : list (string * Json),
              template = JDict other /\
              PyJson.eq_str (field other "id") (template_id config) = false)
         before ->
  PyJson.eq_str (field fields "id") (template_id config) = true ->
  fetch_template_name http_get (S fuel) config =
  Some (if PyJson.eq_str (field fields "status") "APPROVED"
        then Ok (field fields "name")
        else Raise (ValueError_not_approved (field fields "status"))).
Proof.
  intros Hget Hdata Hbefore Hid.
  unfold fetch_template_name. cbn [fetch_loop].
  assert (PyJson.truthy (JStr (templates_url config)) = true) as ->
    by reflexivity.
  cbn [negb requests_get]. rewrite Hget.
  assert (scan_page config (JDict page) =
          if PyJson.eq_str (field fields "status") "APPROVED"
          then Ok (Some (field fields "name"))
          else Raise (ValueError_not_approved (field fields "status"))) as ->.
  { unfold scan_page. cbn [PyJson.get mbind result_bind]. rewrite Hdata.
    cbn [from_option id PyJson.iterate]. clear Hdata Hget.
    induction Hbefore as [|template before (other & -> & Hother) _ IH].
    - cbn [app scan_templates PyJson.get mbind result_bind].
      fold (field fields "id"). rewrite Hid.
      fold (field fields "status"). fold (field fields "name").
      now destruct (PyJson.eq_str (field fields "status") "APPROVED").
    - cbn [app scan_templates PyJson.get mbind result_bind].
      fold (field other "id"). rewrite Hother. exact IH. }
  now destruct (PyJson.eq_str (field fields "status") "APPROVED").
Qed.

Lemma fetch_template_name_first_match_decides_witness :
  fetch_template_name sample_api 1
    {| waba_id := "42"; access_token := "secret"; template_id := "5" |} =
  Some (Ok (JStr "welcome")).
Proof.
  apply (fetch_template_name_first_match_decides sample_api
           {| waba_id := "42"; access_token := "secret"; template_id := "5" |} 0
           [("data", JList [sample_template "5" "APPROVED" "welcome"]);
            ("paging", JDict [("next", JStr "https://graph.facebook.com/page2")])]
           [] [] [("name", JStr "welcome"); ("status", JStr "APPROVED");
                  ("id", JStr "5")]);
    try reflexivity.
  constructor.
Defined.

(** X16. Paging to the end: when the loop turns through the first page and
    the pages that the [next] links lead to without meeting the configured
    id, and the last [next] is missing or falsy, the function raises
    [ValueError] "Template not found: <id>", once every page has been
    requested and not before. *)
Theorem fetch_template_name_not_found
    (http_get : string -> option string -> result Json) (config : Config)
    (nexts : list Json) (final : Json) (fuel : nat) :
  turns_pages http_get config (JStr (templates_url config))
              (Some (access_token config)) (nexts ++ [final]) ->
  PyJson.truthy final = false ->
  ((length nexts + 1 < fuel)%nat ->
   fetch_template_name http_get fuel config =
   Some (Raise (ValueError ("Template not found: " +:+ template_id config)))) /\
  ((fuel <= length nexts + 1)%nat ->
   fetch_template_name http_get fuel config = None).
Proof.
  intros Hturns Hfinal. unfold fetch_template_name. split.
  - intros Hfuel.
    replace fuel with (S (length nexts) + (fuel - S (length nexts)))%nat by lia.
    rewrite (fetch_loop_turns http_get config nexts final _ _ _ Hturns).
    destruct (fuel - S (length nexts))%nat as [|k] eqn:Hk; [lia |].
    cbn [fetch_loop]. now rewrite Hfinal.
  - revert Hturns.
    generalize (JStr (templates_url config)) (Some (access_token config)).
    revert fuel.
    induction nexts as [|next rest IH]; intros fuel url params Hturns Hfuel.
    + destruct fuel as [|[|fuel]]; [reflexivity | | cbn in Hfuel; lia].
      destruct Hturns as [Hturn _]. now rewrite (fetch_loop_turn _ _ _ _ _ _ Hturn).
    + destruct fuel as [|fuel]; [reflexivity |].
      destruct Hturns as [Hturn Hrest].
      rewrite (fetch_loop_turn _ _ _ _ _ _ Hturn).
      apply IH; [exact Hrest | cbn [length] in Hfuel; lia].
Qed.

(** X17. A paging cycle never ends: when the loop reaches, through pages
    without the configured id, a page whose [next] link leads back to
    itself, [fetch_template_name] returns nothing and raises nothing,
    however many requests it is allowed. *)
Theorem fetch_template_name_loops_on_cycle
    (http_get : string -> option string -> result Json) (config : Config)
    (nexts : list Json) (again : Json) :
  turns_pages http_get config (JStr (templates_url config))
              (Some (access_token config)) (nexts ++ [again]) ->
  turns_page http_get config again None again ->
  forall fuel : nat, fetch_template_name http_get fuel config = None.
Proof.
  intros Hturns Hcycle fuel.
  assert (forall k, fetch_loop http_get k config again None = None) as Hloop.
  { induction k as [|k IHk]; [reflexivity |].
    now rewrite (fetch_loop_turn _ _ _ _ _ _ Hcycle). }
  unfold fetch_template_name. revert Hturns.
  generalize (JStr (templates_url config)) (Some (access_token config)).
  revert fuel.
  induction nexts as [|next rest IH]; intros fuel url params Hturns;
    (destruct fuel as [|fuel]; [reflexivity |]);
    destruct Hturns as [Hturn Hrest];
    rewrite (fetch_loop_turn _ _ _ _ _ _ Hturn).
  - apply Hloop.
  - now apply IH.
Qed.

Lemma fetch_template_name_loops_on_cycle_witness :
  fetch_template_name cycling_api 1000 sample_config = None.
Proof.
  apply (fetch_template_name_loops_on_cycle cycling_api sample_config []
           (JStr "https://graph.facebook.com/again")).
  - split; [| exact I].
    split; [reflexivity |]. eexists. repeat split; reflexivity.
  - split; [reflexivity |]. eexists. repeat split; reflexivity.
Defined.

Lemma fetch_template_name_not_found_witness :
  let config := {| waba_id := "42"; access_token := "secret"; template_id := "8" |} in
  fetch_template_name sample_api 3 config =
    Some (Raise (ValueError "Template not found: 8")) /\
  fetch_template_name sample_api 2 config = None.
Proof.
  intros config.
  assert (turns_pages sample_api config (JStr (templates_url config))
            (Some (access_token config))
            ([JStr "https://graph.facebook.com/page2"] ++ [JNull])) as Hturns.
  { split; [| split; [| exact I]].
    - split; [reflexivity |]. eexists. repeat split; reflexivity.
    - split; [reflexivity |]. eexists. repeat split; reflexivity. }
  split.
  - apply (fetch_template_name_not_found sample_api config
             [JStr "https://graph.facebook.com/page2"] JNull 3 Hturns eq_refl).
    cbn. lia.
  - apply (fetch_template_name_not_found sample_api config
             [JStr "https://graph.facebook.com/page2"] JNull 2 Hturns eq_refl).
    cbn. lia.
Defined.
